(** * Scoring-and-attribution engine: a shallow embedding

    The development follows [backend/scripts/cognitive_model_scorer.py]
    (module [Scorer]) and [backend/scripts/shap_explainer.py] (module
    [Explainer]), with two helpers of [backend/scripts/nlp_analyzer.py]
    (module [Analyzer]).

    Numbers.  Python floats are modelled as exact rationals ([Q]) extended
    with the three IEEE special values the code can meet on its input
    ([pyfloat]); rounding is not modelled, so every equation below is an
    equation of exact arithmetic, stated with [==] on [Q].

    Randomness.  [np.random.normal] reads the ambient generator of numpy;
    the generator is an explicit state ([rng]), a stream of the draws still
    to come, threaded through every function that draws.

    Exceptions.  A function that can raise returns [exn + A]; the
    [try]/[except] blocks of the source are the [match]es on that sum. *)

From Stdlib Require Import QArith Qabs Qminmax Lqa Lia List String.
From stdpp Require Import gmap strings.

Local Open Scope Q_scope.
Local Open Scope string_scope.

(** ** Numbers *)

Module PyNum.

Inductive pyfloat : Type :=
| Fin (q : Q)
| PInf
| NInf
| NaN.

(** [np.isnan] *)
Definition isnan (x : pyfloat) : bool :=
  match x with NaN => true | _ => false end.

Definition Qlt_bool (a b : Q) : bool := negb (Qle_bool b a).

(** [a < b] on floats: every comparison with NaN is false. *)
Definition flt (a b : pyfloat) : bool :=
  match a, b with
  | NaN, _ | _, NaN => false
  | Fin x, Fin y => Qlt_bool x y
  | Fin _, PInf | NInf, Fin _ | NInf, PInf => true
  | Fin _, NInf | PInf, _ | NInf, NInf => false
  end.

Definition fopp (a : pyfloat) : pyfloat :=
  match a with
  | Fin x => Fin (- x)
  | PInf => NInf
  | NInf => PInf
  | NaN => NaN
  end.

Definition fadd (a b : pyfloat) : pyfloat :=
  match a, b with
  | NaN, _ | _, NaN => NaN
  | Fin x, Fin y => Fin (x + y)
  | PInf, NInf | NInf, PInf => NaN
  | PInf, _ | _, PInf => PInf
  | NInf, _ | _, NInf => NInf
  end.

Definition fsub (a b : pyfloat) : pyfloat := fadd a (fopp b).

(** The infinity of the sign of [s], NaN for [s == 0]. *)
Definition signed_inf (s : Q) : pyfloat :=
  if Qlt_bool 0 s then PInf else if Qlt_bool s 0 then NInf else NaN.

Definition fmul (a b : pyfloat) : pyfloat :=
  match a, b with
  | NaN, _ | _, NaN => NaN
  | Fin x, Fin y => Fin (x * y)
  | PInf, Fin y | Fin y, PInf => signed_inf y
  | NInf, Fin y | Fin y, NInf => signed_inf (- y)
  | PInf, PInf | NInf, NInf => PInf
  | PInf, NInf | NInf, PInf => NInf
  end.

(** Float division.  Python raises [ZeroDivisionError] on a zero divisor;
    the code divides by the constant widths of [feature_ranges] only
    (lemma [feature_ranges_width]), so that case is left as [Q]'s [x / 0]. *)
Definition fdiv (a b : pyfloat) : pyfloat :=
  match a, b with
  | NaN, _ | _, NaN => NaN
  | Fin x, Fin y => Fin (x / y)
  | Fin _, _ => Fin 0
  | PInf, Fin y => signed_inf y
  | NInf, Fin y => signed_inf (- y)
  | _, _ => NaN
  end.

(** The builtins [max(a, b)] and [min(a, b)]: the first argument is kept
    unless the second is strictly larger (smaller). *)
Definition py_fmax (a b : pyfloat) : pyfloat := if flt a b then b else a.
Definition py_fmin (a b : pyfloat) : pyfloat := if flt b a then b else a.

Definition py_max (a b : Q) : Q := if Qlt_bool a b then b else a.
Definition py_min (a b : Q) : Q := if Qlt_bool b a then b else a.

(** The rational carried by a finite float. Normalised feature values are
    finite (lemma [unit_clamp_finite]), which is where this is used. *)
Definition finite_part (x : pyfloat) : Q :=
  match x with Fin q => q | _ => 0 end.

(** [max(0.0, min(1.0, x))] *)
Definition unit_clamp (x : pyfloat) : pyfloat :=
  py_fmax (Fin 0.0) (py_fmin (Fin 1.0) x).

(** Equality of floats up to the representation of the rational. *)
Definition feq (a b : pyfloat) : Prop :=
  match a, b with
  | Fin x, Fin y => x == y
  | PInf, PInf | NInf, NInf | NaN, NaN => True
  | _, _ => False
  end.

(** The ambient generator: the stream of normal draws still to come. *)
Definition rng : Type := nat -> Q.

(** [np.random.normal(0, sigma)]: the next draw and the advanced state. *)
Definition np_random_normal (g : rng) : Q * rng :=
  (g 0%nat, fun n => g (S n)).

(** [sum(xs)] *)
Definition py_sum (xs : list Q) : Q := fold_left Qplus xs 0.

(** [np.mean(xs)] *)
Definition np_mean (xs : list Q) : Q :=
  py_sum xs / inject_Z (Z.of_nat (length xs)).

(** Python's [dict]: association lists in insertion order. *)
Fixpoint dict_get {A} (d : list (string * A)) (k : string) : option A :=
  match d with
  | [] => None
  | (k', v) :: rest => if String.eqb k' k then Some v else dict_get rest k
  end.

(** [d[k] = v]: an existing key keeps its position. *)
Fixpoint dict_set {A} (d : list (string * A)) (k : string) (v : A)
  : list (string * A) :=
  match d with
  | [] => [(k, v)]
  | (k', v') :: rest =>
      if String.eqb k' k then (k', v) :: rest else (k', v') :: dict_set rest k v
  end.

Definition dict_values {A} (d : list (string * A)) : list A := map snd d.

Inductive exn : Type :=
| KeyError (key : string)
| OSError (msg : string).

(** [str(e)] *)
Definition str_exn (e : exn) : string :=
  match e with
  | KeyError k => "'" ++ k ++ "'"
  | OSError msg => msg
  end.

(** The [options] dict of a request, at the keys the spec recognises. *)
Record options : Type := {
  noiseSeed : option Z;
  explanationTypes : list string;
  outputPath : option string }.

End PyNum.

Import PyNum.

(** ** cognitive_model_scorer.py *)

Module Scorer.

Definition feature_names : list string :=
  [ "wordCount"; "sentenceCount"; "averageWordsPerSentence"; "typeTokenRatio";
    "vocabularySize"; "lexicalDiversity"; "complexWordRatio"; "averageWordLength";
    "cognitiveHealthScore"; "syntacticComplexity"; "informationDensity";
    "hesitationRatio" ].

(** [self.feature_importance], in the insertion order of the literal. *)
Definition feature_importance : list (string * Q) :=
  [ ("cognitiveHealthScore", 0.22);
    ("syntacticComplexity", 0.18);
    ("lexicalDiversity", 0.15);
    ("informationDensity", 0.12);
    ("hesitationRatio", 0.10);
    ("vocabularySize", 0.08);
    ("typeTokenRatio", 0.06);
    ("complexWordRatio", 0.04);
    ("averageWordLength", 0.03);
    ("averageWordsPerSentence", 0.02) ].

(** One entry of [self.models]: a dict read at the keys ['type'] and
    ['accuracy']; a key may be missing from a malformed entry. *)
Record model_info : Type := {
  mi_type : option string;
  mi_accuracy : option Q }.

Definition _create_mock_model (model_type : string) (accuracy : Q) : model_info :=
  {| mi_type := Some model_type; mi_accuracy := Some accuracy |}.

Definition _load_models : list (string * model_info) :=
  [ ("random_forest", _create_mock_model "RandomForest" 0.89);
    ("gradient_boosting", _create_mock_model "GradientBoosting" 0.91);
    ("neural_network", _create_mock_model "NeuralNetwork" 0.87);
    ("svm", _create_mock_model "SVM" 0.85) ].

(** The response of [score_features]; [featureImportance], [processingTime]
    and [timestamp] are left out. *)
Record score_result : Type := {
  riskScore : pyfloat;
  confidence : Q;
  modelPredictions : list (string * pyfloat);
  modelType : string;
  featuresUsed : option nat;
  error : option string }.

(** One iteration of the loop of [_prepare_feature_vector]. *)
Definition prepare_entry (features : gmap string pyfloat) (feature_name : string)
  : Q :=
  match features !! feature_name with
  | Some value =>
      if negb (isnan value) then finite_part (unit_clamp value) else 0.5
  | None => 0.5
  end.

Definition _prepare_feature_vector (features : gmap string pyfloat) : list Q :=
  map (prepare_entry features) feature_names.

(** The chain of [if]/[elif] on [model_info['type']]. *)
Definition apply_bias (ty : string) (contribution : Q) : Q :=
  if String.eqb ty "RandomForest" then contribution * 1.05
  else if String.eqb ty "GradientBoosting" then contribution * 0.98
  else if String.eqb ty "NeuralNetwork" then contribution * 1.02
  else if String.eqb ty "SVM" then contribution * 0.96
  else contribution.

(** The loop of [_simulate_model_prediction] from index [i] on:
    [items] is what is left of [enumerate(self.feature_importance.items())]. *)
Fixpoint base_score_loop (feature_vector : list Q) (mi : model_info)
    (i : nat) (items : list (string * Q)) (base_score : Q) : exn + Q :=
  match items with
  | [] => inr base_score
  | (feature_name, importance) :: rest =>
      match nth_error feature_vector i with
      | Some v =>
          let contribution := v * importance in
          match mi_type mi with
          | None => inl (KeyError "type")
          | Some ty =>
              base_score_loop feature_vector mi (S i) rest
                (base_score + apply_bias ty contribution)
          end
      | None => base_score_loop feature_vector mi (S i) rest base_score
      end
  end.

(** [base_score] when the loop of [_simulate_model_prediction] ends. *)
Definition base_score (feature_vector : list Q) (mi : model_info) : exn + Q :=
  base_score_loop feature_vector mi 0 feature_importance 0.0.

Definition _simulate_model_prediction (feature_vector : list Q)
    (mi : model_info) (g : rng) : (exn + Q) * rng :=
  match base_score feature_vector mi with
  | inl e => (inl e, g)
  | inr base =>
      let '(noise, g') := np_random_normal g in
      let score := base + noise in
      (inr (py_max 0.0 (py_min 1.0 score)), g')
  end.

(** The loop of [_get_ensemble_predictions]; a model that raises is skipped. *)
Fixpoint ensemble_loop (feature_vector : list Q)
    (models : list (string * model_info)) (predictions : list (string * Q))
    (g : rng) : list (string * Q) * rng :=
  match models with
  | [] => (predictions, g)
  | (model_name, mi) :: rest =>
      match _simulate_model_prediction feature_vector mi g with
      | (inr prediction, g') =>
          ensemble_loop feature_vector rest
            (dict_set predictions model_name prediction) g'
      | (inl _, g') => ensemble_loop feature_vector rest predictions g'
      end
  end.

Definition _get_ensemble_predictions (models : list (string * model_info))
    (feature_vector : list Q) (g : rng) : list (string * Q) * rng :=
  ensemble_loop feature_vector models [] g.

(** The loop of [_calculate_ensemble_score]: [(weighted_sum, total_weight)]. *)
Fixpoint weighted_loop (models : list (string * model_info))
    (predictions : list (string * Q)) (weighted_sum total_weight : Q)
  : exn + (Q * Q) :=
  match predictions with
  | [] => inr (weighted_sum, total_weight)
  | (model_name, prediction) :: rest =>
      match dict_get models model_name with
      | None => inl (KeyError model_name)
      | Some mi =>
          match mi_accuracy mi with
          | None => inl (KeyError "accuracy")
          | Some weight =>
              weighted_loop models rest
                (weighted_sum + prediction * weight) (total_weight + weight)
          end
      end
  end.

(** [_calculate_ensemble_score].  [total_weight] is the exact sum of the
    accuracies.  The source adds floats: where the accuracies are all
    positive, or all zero, its test [total_weight == 0] has the outcome
    it has here; accuracies of both signs that cancel exactly need not
    cancel in floats. *)
Definition _calculate_ensemble_score (models : list (string * model_info))
    (predictions : list (string * Q)) : exn + Q :=
  match predictions with
  | [] => inr 0.5
  | _ =>
      match weighted_loop models predictions 0.0 0.0 with
      | inl e => inl e
      | inr (weighted_sum, total_weight) =>
          if Qeq_bool total_weight 0 then inr 0.5
          else
            let final_score := weighted_sum / total_weight in
            inr (py_max 0.0 (py_min 1.0 final_score))
      end
  end.

Section Confidence.

(** The square root of numpy, which has no rational counterpart. *)
Variable np_sqrt : Q -> Q.

(** [np.std(xs)]: the population standard deviation. *)
Definition np_std (xs : list Q) : Q :=
  let m := np_mean xs in
  np_sqrt (np_mean (map (fun x => (x - m) * (x - m)) xs)).

(** [sum(1 for f in feature_vector if f is not None and not np.isnan(f))] *)
Definition non_null_features (feature_vector : list Q) : nat :=
  length (List.filter (fun f => negb (isnan (Fin f))) feature_vector).

Definition completeness_bonus (feature_vector : list Q) : Q :=
  let completeness_ratio :=
    inject_Z (Z.of_nat (non_null_features feature_vector))
    / inject_Z (Z.of_nat (length feature_names)) in
  completeness_ratio * 0.2.

Definition _calculate_prediction_confidence (predictions : list (string * Q))
    (feature_vector : list Q) : Q :=
  match predictions with
  | [] => 0.3
  | _ =>
      let pred_values := dict_values predictions in
      let base_confidence :=
        if Nat.eqb (length pred_values) 1 then 0.7
        else
          let std_dev := np_std pred_values in
          py_max 0.5 (1.0 - std_dev * 2) in
      let avg_prediction := np_mean pred_values in
      let extreme_bonus := Qabs (avg_prediction - 0.5) * 0.1 in
      let final_confidence :=
        base_confidence + completeness_bonus feature_vector + extreme_bonus in
      py_max 0.3 (py_min 0.95 final_confidence)
  end.

(** [if 'cognitiveHealthScore' in features: ...] *)
Definition fallback_primary (features : gmap string pyfloat) (score : pyfloat)
  : pyfloat :=
  match features !! "cognitiveHealthScore" with
  | Some c => fadd (fmul c (Fin 0.7)) (fmul score (Fin 0.3))
  | None => score
  end.

(** [if 'hesitationRatio' in features: ...] *)
Definition fallback_hesitation (features : gmap string pyfloat) (score : pyfloat)
  : pyfloat :=
  match features !! "hesitationRatio" with
  | Some h =>
      let hesitation_penalty := fmul h (Fin 0.2) in
      py_fmax (Fin 0.0) (fsub score hesitation_penalty)
  | None => score
  end.

Definition _fallback_scoring (features : gmap string pyfloat)
    (error_msg : string) : score_result :=
  let score := Fin 0.5 in
  let score := fallback_primary features score in
  let score := fallback_hesitation features score in
  {| riskScore := score;
     confidence := 0.4;
     modelPredictions := [("fallback", score)];
     modelType := "fallback";
     featuresUsed := None;
     error := Some error_msg |}.

(** [score_features]: the [try] block and its [except] clause.  [opts] is
    the parameter [options], which the body never reads.  The call of
    [_calculate_feature_importance] is left out with the field it fills; it
    cannot raise. *)
Definition score_features (models : list (string * model_info))
    (features : gmap string pyfloat) (opts : options) (g : rng)
  : score_result * rng :=
  let feature_vector := _prepare_feature_vector features in
  let '(predictions, g') :=
    _get_ensemble_predictions models feature_vector g in
  match _calculate_ensemble_score models predictions with
  | inr risk_score =>
      let confidence :=
        _calculate_prediction_confidence predictions feature_vector in
      ({| riskScore := Fin risk_score;
          confidence := confidence;
          modelPredictions := map (fun kv => (fst kv, Fin (snd kv))) predictions;
          modelType := "ensemble";
          featuresUsed := Some (length feature_vector);
          error := None |}, g')
  | inl e => (_fallback_scoring features (str_exn e), g')
  end.

End Confidence.

(** [self.feature_importance.get(feature_name, 0.01)] *)
Definition base_importance_of (feature_name : string) : Q :=
  match dict_get feature_importance feature_name with
  | Some w => w
  | None => 0.01
  end.

(** The loop of [_calculate_feature_importance] from index [i] on: [names]
    is what is left of [enumerate(self.feature_names)]. *)
Fixpoint importance_loop (feature_vector : list Q) (i : nat)
    (names : list string) (importance : list (string * Q))
  : list (string * Q) :=
  match names with
  | [] => importance
  | feature_name :: rest =>
      match nth_error feature_vector i with
      | Some v =>
          let base_importance := base_importance_of feature_name in
          let value_adjustment := Qabs (v - 0.5) * 0.1 in
          let final_importance := base_importance + value_adjustment in
          importance_loop feature_vector (S i) rest
            (dict_set importance feature_name final_importance)
      | None => importance_loop feature_vector (S i) rest importance
      end
  end.

Definition _calculate_feature_importance (feature_vector : list Q)
  : list (string * Q) :=
  let importance := importance_loop feature_vector 0 feature_names [] in
  let total_importance := py_sum (dict_values importance) in
  if Qlt_bool 0 total_importance
  then map (fun kv => (fst kv, snd kv / total_importance)) importance
  else importance.

End Scorer.

(** ** shap_explainer.py *)

Module Explainer.

Definition feature_names : list string :=
  [ "wordCount"; "sentenceCount"; "averageWordsPerSentence"; "typeTokenRatio";
    "vocabularySize"; "lexicalDiversity"; "complexWordRatio"; "averageWordLength";
    "cognitiveHealthScore"; "syntacticComplexity"; "informationDensity";
    "hesitationRatio"; "sentimentScore" ].

Definition feature_weights : list (string * Q) :=
  [ ("cognitiveHealthScore", 0.25);
    ("syntacticComplexity", 0.18);
    ("lexicalDiversity", 0.15);
    ("informationDensity", 0.12);
    ("hesitationRatio", -0.10);
    ("vocabularySize", 0.08);
    ("typeTokenRatio", 0.06);
    ("complexWordRatio", 0.04);
    ("averageWordLength", 0.03);
    ("averageWordsPerSentence", 0.02);
    ("wordCount", 0.02);
    ("sentenceCount", 0.01);
    ("sentimentScore", 0.04) ].

Definition expected_value : Q := 0.5.

Definition feature_ranges : list (string * (Q * Q)) :=
  [ ("wordCount", (10, 500));
    ("sentenceCount", (2, 50));
    ("averageWordsPerSentence", (5, 25));
    ("typeTokenRatio", (0.3, 1.0));
    ("vocabularySize", (20, 400));
    ("lexicalDiversity", (0.3, 1.0));
    ("complexWordRatio", (0.0, 0.5));
    ("averageWordLength", (3.0, 8.0));
    ("cognitiveHealthScore", (0.0, 1.0));
    ("syntacticComplexity", (0.0, 1.0));
    ("informationDensity", (0.0, 1.0));
    ("hesitationRatio", (0.0, 0.3));
    ("sentimentScore", (-2.0, 2.0)) ].

(** What the process finds around it: whether [import shap] succeeded, and
    whether [os.makedirs] of the output directory succeeds. *)
Record environment : Type := {
  SHAP_AVAILABLE : bool;
  makedirs : option string -> exn + unit }.

(** The response of [generate_shap_explanation]; [processingTime],
    [visualizations] and [metadata] are left out. *)
Record shap_result : Type := {
  shapValues : list (string * Q);
  baseValue : Q;
  expectedValue : Q;
  featureNames : list string;
  featureValues : list (string * Q);
  modelType : string;
  error : option string }.

(** [_normalize_feature].  The quotient is the exact one.  The source
    rounds it, so a raw value that lands exactly on 0.5 here can land one
    unit in the last place beside it there; a missing or NaN entry never
    reaches this function. *)
Definition _normalize_feature (feature_name : string) (value : pyfloat)
  : pyfloat :=
  match dict_get feature_ranges feature_name with
  | None => py_fmax (Fin 0.0) (py_fmin (Fin 1.0) value)
  | Some (min_val, max_val) =>
      let normalized :=
        fdiv (fsub value (Fin min_val)) (fsub (Fin max_val) (Fin min_val)) in
      py_fmax (Fin 0.0) (py_fmin (Fin 1.0) normalized)
  end.

(** One iteration of the loop of [_prepare_feature_vector]. *)
Definition prepare_entry (features : gmap string pyfloat) (feature_name : string)
  : Q :=
  match features !! feature_name with
  | Some value =>
      if negb (isnan value)
      then finite_part (_normalize_feature feature_name value)
      else 0.5
  | None => 0.5
  end.

Definition _prepare_feature_vector (features : gmap string pyfloat)
  : list (string * Q) :=
  fold_left
    (fun vector feature_name =>
       dict_set vector feature_name (prepare_entry features feature_name))
    feature_names [].

(** [self.feature_weights.get(feature_name, 0.01)] *)
Definition weight_of (feature_name : string) : Q :=
  match dict_get feature_weights feature_name with
  | Some w => w
  | None => 0.01
  end.

(** [prediction.get('riskScore', 0.5)], for a prediction whose risk score,
    when it has one, is finite: the type of [prediction] leaves out a risk
    score that is NaN or infinite, and everything below is stated for
    finite risk scores only. *)
Definition risk_score_of (prediction : gmap string Q) : Q :=
  match prediction !! "riskScore" with
  | Some r => r
  | None => 0.5
  end.

(** [sum(abs(weight))] over the features of the vector, in both attribution
    functions. *)
Definition abs_weight_sum (feature_vector : list (string * Q)) : Q :=
  fold_left (fun acc kv => acc + Qabs (weight_of (fst kv))) feature_vector 0.

(** [(value - 0.5) * weight] *)
Definition base_contribution (feature_name : string) (value : Q) : Q :=
  (value - 0.5) * weight_of feature_name.

(** The second loop of [_calculate_tree_shap]. *)
Fixpoint tree_loop (total_contribution weighted_sum : Q)
    (items : list (string * Q)) (shap_values : list (string * Q)) (g : rng)
  : list (string * Q) * rng :=
  match items with
  | [] => (shap_values, g)
  | (feature_name, value) :: rest =>
      let scaled_contribution :=
        if Qlt_bool 0 weighted_sum
        then base_contribution feature_name value
             * (total_contribution / weighted_sum)
        else 0 in
      let '(noise, g') := np_random_normal g in
      tree_loop total_contribution weighted_sum rest
        (dict_set shap_values feature_name (scaled_contribution + noise)) g'
  end.

(** [_calculate_tree_shap].  [current_sum] is the exact sum of the
    perturbed contributions.  The source adds floats: when the
    contributions nearly cancel, its [current_sum], the outcome of its
    test [current_sum != 0] and its [adjustment_factor] can all differ
    from the ones here. *)
Definition _calculate_tree_shap (feature_vector : list (string * Q))
    (prediction : gmap string Q) (g : rng) : list (string * Q) * rng :=
  let risk_score := risk_score_of prediction in
  let total_contribution := risk_score - expected_value in
  let weighted_sum := abs_weight_sum feature_vector in
  let '(shap_values, g') :=
    tree_loop total_contribution weighted_sum feature_vector [] g in
  let current_sum := py_sum (dict_values shap_values) in
  if negb (Qeq_bool current_sum 0) then
    let adjustment_factor := total_contribution / current_sum in
    (map (fun kv => (fst kv, snd kv * adjustment_factor)) shap_values, g')
  else (shap_values, g').

(** The loop shared by [_calculate_approximate_shap] and
    [_fallback_explanation]. *)
Fixpoint approximate_loop (total_contribution total_weight : Q)
    (items : list (string * Q)) (shap_values : list (string * Q))
  : list (string * Q) :=
  match items with
  | [] => shap_values
  | (feature_name, value) :: rest =>
      let weight := weight_of feature_name in
      let deviation := value - 0.5 in
      let contribution :=
        if Qlt_bool 0 total_weight
        then deviation * weight * (total_contribution / total_weight)
        else 0 in
      approximate_loop total_contribution total_weight rest
        (dict_set shap_values feature_name contribution)
  end.

Definition _calculate_approximate_shap (feature_vector : list (string * Q))
    (prediction : gmap string Q) : list (string * Q) :=
  let risk_score := risk_score_of prediction in
  let total_contribution := risk_score - expected_value in
  let total_weight := abs_weight_sum feature_vector in
  approximate_loop total_contribution total_weight feature_vector [].

(** [_calculate_shap_values]; nothing in [_calculate_tree_shap] raises on a
    vector of finite values, so its [except] clause is not taken. *)
Definition _calculate_shap_values (env : environment)
    (feature_vector : list (string * Q)) (prediction : gmap string Q) (g : rng)
  : list (string * Q) * rng :=
  if negb (SHAP_AVAILABLE env)
  then (_calculate_approximate_shap feature_vector prediction, g)
  else _calculate_tree_shap feature_vector prediction g.

Definition _fallback_explanation (features : gmap string pyfloat)
    (prediction : gmap string Q) (error_msg : string) : shap_result :=
  let feature_vector := _prepare_feature_vector features in
  let risk_score := risk_score_of prediction in
  let total_contribution := risk_score - expected_value in
  let total_weight := abs_weight_sum feature_vector in
  let shap_values :=
    approximate_loop total_contribution total_weight feature_vector [] in
  {| shapValues := shap_values;
     baseValue := expected_value;
     expectedValue := expected_value;
     featureNames := map fst shap_values;
     featureValues := feature_vector;
     modelType := "fallback";
     error := Some error_msg |}.

(** [generate_shap_explanation].  Rendering belongs to the presentation
    layer; of [_generate_visualizations] only [os.makedirs] is kept, the one
    call in it outside a handler of its own. *)
Definition generate_shap_explanation (env : environment)
    (features : gmap string pyfloat) (prediction : gmap string Q)
    (opts : options) (g : rng) : shap_result :=
  let feature_vector := _prepare_feature_vector features in
  let '(shap_values, _) :=
    _calculate_shap_values env feature_vector prediction g in
  let visualizations :=
    match explanationTypes opts with
    | [] => inr tt
    | _ => makedirs env (outputPath opts)
    end in
  match visualizations with
  | inr _ =>
      {| shapValues := shap_values;
         baseValue := expected_value;
         expectedValue := expected_value;
         featureNames := map fst shap_values;
         featureValues := feature_vector;
         modelType := "ensemble";
         error := None |}
  | inl e => _fallback_explanation features prediction (str_exn e)
  end.

(** One value of the dict returned by [_generate_visualizations]. *)
Record visualization : Type := {
  viz_filename : option string;
  viz_status : string;
  viz_error : option string;
  viz_type : string }.

(** The chain of [if]/[elif] on [viz_type].  The five [_create_*_plot]
    functions draw with matplotlib and write a file: they belong to the
    presentation layer and are the parameter [render], which gives, for the
    request at position [i] of the list, the file name returned or the
    exception raised.  [None] is the [else: continue]. *)
Definition create_plot (render : nat -> string -> exn + string) (i : nat)
    (viz_type : string) : option (exn + string) :=
  if String.eqb viz_type "waterfall" then Some (render i "waterfall")
  else if String.eqb viz_type "bar" then Some (render i "bar")
  else if String.eqb viz_type "force" then Some (render i "force")
  else if String.eqb viz_type "summary" then Some (render i "summary")
  else if String.eqb viz_type "dependence" then Some (render i "dependence")
  else None.

(** The loop of [_generate_visualizations] from position [i] on. *)
Fixpoint visualizations_loop (render : nat -> string -> exn + string)
    (i : nat) (explanation_types : list string)
    (visualizations : list (string * visualization))
  : list (string * visualization) :=
  match explanation_types with
  | [] => visualizations
  | viz_type :: rest =>
      match create_plot render i viz_type with
      | None => visualizations_loop render (S i) rest visualizations
      | Some (inr viz_file) =>
          visualizations_loop render (S i) rest
            (dict_set visualizations viz_type
               {| viz_filename := Some viz_file;
                  viz_status := "generated";
                  viz_error := None;
                  viz_type := viz_type |})
      | Some (inl e) =>
          visualizations_loop render (S i) rest
            (dict_set visualizations viz_type
               {| viz_filename := None;
                  viz_status := "failed";
                  viz_error := Some (str_exn e);
                  viz_type := viz_type |})
      end
  end.

(** [_generate_visualizations], as [generate_shap_explanation] calls it:
    with a list of kinds that is present and not empty, so that the default
    of [options.get('explanationTypes', ...)] is not used. *)
Definition _generate_visualizations (env : environment)
    (render : nat -> string -> exn + string) (opts : options)
  : exn + list (string * visualization) :=
  match makedirs env (outputPath opts) with
  | inl e => inl e
  | inr _ => inr (visualizations_loop render 0 (explanationTypes opts) [])
  end.

End Explainer.

(** ** nlp_analyzer.py: the helpers that do not need the language model *)

Module Analyzer.

(** [word_sequence[i] == word_sequence[j]], for indices of the sequence. *)
Definition same_word (word_sequence : list string) (i j : nat) : bool :=
  match nth_error word_sequence i, nth_error word_sequence j with
  | Some a, Some b => String.eqb a b
  | _, _ => false
  end.

(** [range(a, b)] *)
Definition range (a b : nat) : list nat := seq a (b - a).

(** The inner loop of [_detect_repetitions]: the words within 3 of [i]. *)
Definition near_loop (word_sequence : list string) (i near : nat) : nat :=
  fold_left
    (fun near j => if same_word word_sequence i j then S near else near)
    (range (i + 2) (Nat.min (i + 4) (length word_sequence))) near.

(** One iteration of the outer loop, on [(immediate, near)]. *)
Definition repetition_step (word_sequence : list string)
    (repetitions : nat * nat) (i : nat) : nat * nat :=
  let immediate :=
    if same_word word_sequence i (i + 1) then S (fst repetitions)
    else fst repetitions in
  (immediate, near_loop word_sequence i (snd repetitions)).

(** [_detect_repetitions]: the counts ['immediate'] and ['near']. *)
Definition _detect_repetitions (word_sequence : list string) : nat * nat :=
  fold_left (repetition_step word_sequence)
    (range 0 (length word_sequence - 1)) (0%nat, 0%nat).

(** [sum(1 for token in sent if token.pos_ == tag)]; a sentence is the
    list of the part-of-speech tags of its tokens. *)
Definition count_pos (tag : string) (sent : list string) : nat :=
  length (List.filter (String.eqb tag) sent).

(** The loop of [_calculate_sentence_connectivity] over [sentences[1:]];
    [None] is the ZeroDivisionError of an empty sentence. *)
Fixpoint connectivity_loop (sentences : list (list string))
    (connectivity_score : Q) : option Q :=
  match sentences with
  | [] => Some connectivity_score
  | sent :: rest =>
      let pronouns := count_pos "PRON" sent in
      let determiners := count_pos "DET" sent in
      match length sent with
      | O => None
      | S _ =>
          connectivity_loop rest
            (connectivity_score
             + inject_Z (Z.of_nat (pronouns + determiners))
               / inject_Z (Z.of_nat (length sent)))
      end
  end.

Definition _calculate_sentence_connectivity (sentences : list (list string))
  : option Q :=
  if Nat.ltb (length sentences) 2 then Some 0
  else
    match connectivity_loop (tl sentences) 0 with
    | None => None
    | Some connectivity_score =>
        Some (connectivity_score
              / inject_Z (Z.of_nat (length sentences - 1)))
    end.

End Analyzer.

(** ** Notions used to state the properties *)

Module Props.

(** The contribution of section 4.2 of the specification: every feature
    with a defined weight contributes its own value of the vector (found at
    the feature's position in [feature_names]) times its own weight, times
    the bias multiplier of the model. *)
Fixpoint index_of (name : string) (names : list string) : option nat :=
  match names with
  | [] => None
  | n :: rest =>
      if String.eqb n name then Some 0%nat
      else option_map S (index_of name rest)
  end.

Definition own_value (feature_vector : list Q) (name : string) : Q :=
  match index_of name Scorer.feature_names with
  | Some i => nth i feature_vector 0
  | None => 0
  end.

Definition bias_multiplier (ty : string) : Q :=
  if String.eqb ty "RandomForest" then 1.05
  else if String.eqb ty "GradientBoosting" then 0.98
  else if String.eqb ty "NeuralNetwork" then 1.02
  else if String.eqb ty "SVM" then 0.96
  else 1.

Definition spec_contribution (feature_vector : list Q) (ty : string) : Q :=
  py_sum (map (fun kv => own_value feature_vector (fst kv) * snd kv
                         * bias_multiplier ty)
            Scorer.feature_importance).

(** The accuracy-weighted mean of a map of predictions. *)
Definition accuracy_of (models : list (string * Scorer.model_info))
    (model_name : string) : Q :=
  match dict_get models model_name with
  | Some mi => match Scorer.mi_accuracy mi with Some a => a | None => 0 end
  | None => 0
  end.

(** The predictions weighted by accuracy, and the accuracies, summed. *)
Definition weighted_total (models : list (string * Scorer.model_info))
    (predictions : list (string * Q)) : Q :=
  py_sum (map (fun kv => snd kv * accuracy_of models (fst kv)) predictions).

Definition weight_total (models : list (string * Scorer.model_info))
    (predictions : list (string * Q)) : Q :=
  py_sum (map (fun kv => accuracy_of models (fst kv)) predictions).

Definition weighted_mean (models : list (string * Scorer.model_info))
    (predictions : list (string * Q)) : Q :=
  weighted_total models predictions / weight_total models predictions.

(** Every predicted model is in the table, with an accuracy. *)
Definition resolvable (models : list (string * Scorer.model_info))
    (predictions : list (string * Q)) : Prop :=
  forall kv, In kv predictions ->
    exists mi a,
      dict_get models (fst kv) = Some mi /\ Scorer.mi_accuracy mi = Some a.


Definition min_prediction (predictions : list (string * Q)) : Q :=
  match dict_values predictions with
  | [] => 0
  | p :: ps => fold_left Qmin ps p
  end.

Definition max_prediction (predictions : list (string * Q)) : Q :=
  match dict_values predictions with
  | [] => 0
  | p :: ps => fold_left Qmax ps p
  end.

(** A raw value that is a finite number of [0, 1], when the key is present. *)
Definition raw_in_unit (features : gmap string pyfloat) (k : string) : Prop :=
  match features !! k with
  | Some (Fin q) => 0 <= q <= 1
  | Some _ => False
  | None => True
  end.

(** What a normaliser makes of the raw entry [raw] of a feature whose
    configured range is [(lo, hi)]; the scorer has the range [(0, 1)] for
    every feature. *)
Definition normalised (raw : option pyfloat) (lo hi : Q) (v : Q) : Prop :=
  0 <= v <= 1 /\
  match raw with
  | None | Some NaN => v = 0.5
  | Some PInf => v == 1
  | Some NInf => v == 0
  | Some (Fin q) =>
      let r := (q - lo) / (hi - lo) in
      (r <= 0 -> v == 0) /\ (1 <= r -> v == 1) /\ (0 <= r <= 1 -> v == r)
  end.

(** The sum of the raw per-feature contributions [(value - 0.5) * weight]. *)
Definition raw_contribution_sum (feature_vector : list (string * Q)) : Q :=
  py_sum (map (fun kv => Explainer.base_contribution (fst kv) (snd kv))
            feature_vector).

(** [shap_values] of [_calculate_tree_shap] when its second loop ends,
    before the adjustment: scaled contribution plus noise. *)
Definition perturbed_contributions (feature_vector : list (string * Q))
    (prediction : gmap string Q) (g : rng) : list (string * Q) :=
  fst (Explainer.tree_loop
         (Explainer.risk_score_of prediction - Explainer.expected_value)
         (Explainer.abs_weight_sum feature_vector) feature_vector [] g).

(** Two generator states that deliver the same first [n] draws. *)
Definition same_draws (n : nat) (g1 g2 : rng) : Prop :=
  forall i, (i < n)%nat -> g1 i = g2 i.

(** A model entry that has the key ['type']. *)
Definition has_type (m : string * Scorer.model_info) : bool :=
  match Scorer.mi_type (snd m) with Some _ => true | None => false end.

(** The names of the entries with a type, in table order. *)
Definition typed_names (models : list (string * Scorer.model_info))
  : list string :=
  map fst (List.filter has_type models).

(** An entry that predicts and then cannot be weighted. *)
Definition lacks_accuracy (m : string * Scorer.model_info) : Prop :=
  has_type m = true /\ Scorer.mi_accuracy (snd m) = None.

(** Every value of the dict is a number of [0, 1]. *)
Definition in_unit (d : list (string * Q)) : Prop :=
  Forall (fun kv => 0 <= snd kv <= 1) d.

(** The kinds of chart [_generate_visualizations] knows. *)
Definition plot_kinds : list string :=
  [ "waterfall"; "bar"; "force"; "summary"; "dependence" ].

(** The position of the last request for [kind] in a list of requests that
    starts at position [i]. *)
Fixpoint last_request (kind : string) (i : nat) (requests : list string)
  : option nat :=
  match requests with
  | [] => None
  | r :: rest =>
      match last_request kind (S i) rest with
      | Some j => Some j
      | None => if String.eqb r kind then Some i else None
      end
  end.

(** The fallback rule on the raw entries, case by case.  [blended] is the
    score after the test on cognitiveHealthScore: 0.5 without the key, the
    70/30 blend for a finite value, and the value itself when it is
    infinite or NaN (the blend of floats keeps those). *)
Definition blended (primary : option pyfloat) : pyfloat :=
  match primary with
  | None => Fin 0.5
  | Some (Fin c) => Fin (c * 0.7 + 0.5 * 0.3)
  | Some special => special
  end.

(** [penalised] is the score after the test on hesitationRatio: unchanged
    without the key; for a finite ratio the score less a fifth of it, not
    below 0.  Where the difference of floats is NaN or minus infinity,
    [max(0.0, .)] keeps its first argument, 0; where it is plus infinity
    it is kept. *)
Definition penalised (score : pyfloat) (hesitation : option pyfloat)
  : pyfloat :=
  match hesitation with
  | None => score
  | Some (Fin h) =>
      match score with
      | Fin s => Fin (Qmax 0 (s - h * 0.2))
      | PInf => PInf
      | NInf | NaN => Fin 0
      end
  | Some NInf =>
      match score with
      | Fin _ | PInf => PInf
      | NInf | NaN => Fin 0
      end
  | Some PInf | Some NaN => Fin 0
  end.


(** A float that is not a finite number. *)
Definition non_finite (x : pyfloat) : Prop :=
  match x with Fin _ => False | _ => True end.

(** The entry [_generate_visualizations] stores for one outcome of a
    plot function. *)
Definition visualization_of (kind : string) (outcome : exn + string)
  : Explainer.visualization :=
  match outcome with
  | inr viz_file =>
      {| Explainer.viz_filename := Some viz_file;
         Explainer.viz_status := "generated";
         Explainer.viz_error := None;
         Explainer.viz_type := kind |}
  | inl e =>
      {| Explainer.viz_filename := None;
         Explainer.viz_status := "failed";
         Explainer.viz_error := Some (str_exn e);
         Explainer.viz_type := kind |}
  end.

End Props.

Import Props.

(** ** Sample inputs *)

Module Samples.

Definition no_features : gmap string pyfloat := ∅.

Definition seeded : options :=
  {| noiseSeed := Some 42%Z; explanationTypes := []; outputPath := None |}.

Definition reseeded : options :=
  {| noiseSeed := Some 7%Z; explanationTypes := []; outputPath := None |}.

Definition quiet : rng := fun _ => 0.

(** The draws 0.00, 0.01, 0.02, ... *)
Definition ramp : rng := fun n => inject_Z (Z.of_nat n) / 100.

(** The first thirteen draws of [ramp], then zeros. *)
Definition ramp_then_quiet : rng :=
  fun n => if Nat.ltb n 13 then ramp n else 0.

(** A first draw of 0.01, then zeros. *)
Definition blip : rng := fun n => if Nat.eqb n 0 then 0.01 else 0.

(** A second draw of 0.01, zeros elsewhere. *)
Definition late_blip : rng := fun n => if Nat.eqb n 1 then 0.01 else 0.

Definition with_shap : Explainer.environment :=
  {| Explainer.SHAP_AVAILABLE := true;
     Explainer.makedirs := fun _ => inr tt |}.

Definition without_shap : Explainer.environment :=
  {| Explainer.SHAP_AVAILABLE := false;
     Explainer.makedirs := fun _ => inr tt |}.

Definition high_health : gmap string pyfloat :=
  {[ "cognitiveHealthScore" := Fin 1.0 ]}.

Definition risk_08 : gmap string Q := {[ "riskScore" := 0.8 ]}.


(** An entry of the model table without the key ['accuracy']. *)
Definition no_accuracy : list (string * Scorer.model_info) :=
  [ ("rule_based",
     {| Scorer.mi_type := Some "RuleBased"; Scorer.mi_accuracy := None |}) ].

(** An entry of the model table without the key ['type']. *)
Definition no_type : list (string * Scorer.model_info) :=
  [ ("broken",
     {| Scorer.mi_type := None; Scorer.mi_accuracy := Some 0.9 |}) ].

Definition out_of_range_health : gmap string pyfloat :=
  {[ "cognitiveHealthScore" := Fin 2.0 ]}.

Definition good_health : gmap string pyfloat :=
  {[ "cognitiveHealthScore" := Fin 0.8 ]}.

Definition full_hesitation : gmap string pyfloat :=
  {[ "hesitationRatio" := Fin 1.0 ]}.

(** Three surviving predictions of the shipped model table. *)
Definition three_predictions : list (string * Q) :=
  [ ("random_forest", 0.2); ("gradient_boosting", 0.8);
    ("neural_network", 0.5) ].

(** Thirteen draws of the size of [np.random.normal(0, 0.01)], of both
    signs, and 0.005 from then on. *)
Definition jitter : rng :=
  fun n =>
    nth n [ 0.012; - 0.007; 0.003; 0.015; - 0.011; 0.008; - 0.002; 0.006;
            - 0.013; 0.009; 0.004; - 0.005; 0.010 ] 0.005.

(** A stand-in for the square root of numpy; the properties below hold for
    every such function. *)
Definition id_sqrt : Q -> Q := fun x => x.

(** A table whose only entry has accuracy 0. *)
Definition zero_accuracy : list (string * Scorer.model_info) :=
  [ ("rule_based", Scorer._create_mock_model "RuleBased" 0) ].

Definition one_prediction : list (string * Q) := [ ("rule_based", 0.7) ].

Definition nan_health : gmap string pyfloat :=
  {[ "cognitiveHealthScore" := NaN ]}.


(** A directory that cannot be created. *)
Definition read_only : Explainer.environment :=
  {| Explainer.SHAP_AVAILABLE := true;
     Explainer.makedirs := fun _ => inl (OSError "Read-only file system") |}.

Definition with_charts : options :=
  {| noiseSeed := None; explanationTypes := ["waterfall"; "bar"];
     outputPath := None |}.

(** A renderer whose bar chart fails. *)
Definition bar_fails : nat -> string -> exn + string :=
  fun _ kind =>
    if String.eqb kind "bar" then inl (OSError "disk full")
    else inr (kind ++ ".png").

Definition chart_requests : options :=
  {| noiseSeed := None;
     explanationTypes := ["bar"; "pie"; "waterfall"; "bar"];
     outputPath := None |}.

End Samples.

Import Samples.

(** ** Arithmetic of the float model *)

Lemma Qlt_bool_true (a b : Q) : Qlt_bool a b = true <-> a < b.
Proof.
  unfold Qlt_bool. rewrite negb_true_iff.
  destruct (Qle_bool b a) eqn:E.
  - apply Qle_bool_iff in E. split; [discriminate | intros H; lra].
  - split; [intros _ | reflexivity].
    destruct (Qlt_le_dec a b) as [H | H]; [exact H |].
    apply Qle_bool_iff in H. congruence.
Qed.

Lemma Qlt_bool_false (a b : Q) : Qlt_bool a b = false <-> b <= a.
Proof.
  destruct (Qlt_bool a b) eqn:E.
  - apply Qlt_bool_true in E. split; [discriminate | intros H; lra].
  - split; [intros _ | reflexivity].
    destruct (Qlt_le_dec a b) as [H | H]; [| exact H].
    apply Qlt_bool_true in H. congruence.
Qed.

(** Case analysis on one [Qlt_bool] test of the goal. *)
Ltac case_lt :=
  match goal with
  | |- context [Qlt_bool ?a ?b] =>
      let E := fresh "E" in
      destruct (Qlt_bool a b) eqn:E;
      [apply Qlt_bool_true in E | apply Qlt_bool_false in E]
  end.

Lemma py_clamp_bounds (lo hi x : Q) :
  lo <= hi -> lo <= py_max lo (py_min hi x) <= hi.
Proof.
  intros H. unfold py_min. case_lt; unfold py_max; case_lt; lra.
Qed.

Lemma py_clamp_id (lo hi x : Q) :
  lo <= x <= hi -> py_max lo (py_min hi x) == x.
Proof.
  intros H. unfold py_min. case_lt; unfold py_max; case_lt; lra.
Qed.

Lemma unit_clamp_fin (q : Q) :
  unit_clamp (Fin q) = Fin (py_max 0.0 (py_min 1.0 q)).
Proof.
  unfold unit_clamp, py_fmax, py_fmin, py_max, py_min. simpl.
  destruct (Qlt_bool q 1.0); simpl; [| reflexivity].
  destruct (Qlt_bool 0.0 q); reflexivity.
Qed.

Lemma unit_clamp_finite (x : pyfloat) :
  exists q, unit_clamp x = Fin q /\ 0 <= q <= 1.
Proof.
  destruct x as [q | | |].
  - exists (py_max 0.0 (py_min 1.0 q)). split; [apply unit_clamp_fin |].
    pose proof (py_clamp_bounds 0.0 1.0 q) as H. lra.
  - exists 1.0. split; [reflexivity | lra].
  - exists 0.0. split; [reflexivity | lra].
  - exists 1.0. split; [reflexivity | lra].
Qed.

(** ** The normalisers *)

Lemma unit_clamp_normalised (r : Q) (v : Q) :
  Fin v = unit_clamp (Fin r) ->
  0 <= v <= 1 /\
  (r <= 0 -> v == 0) /\ (1 <= r -> v == 1) /\ (0 <= r <= 1 -> v == r).
Proof.
  rewrite unit_clamp_fin. intros [= ->].
  unfold py_min. case_lt; unfold py_max; case_lt; repeat split; intros; lra.
Qed.

Lemma scorer_entry_normalised (features : gmap string pyfloat) (name : string) :
  normalised (features !! name) 0 1 (Scorer.prepare_entry features name).
Proof.
  unfold normalised, Scorer.prepare_entry.
  destruct (features !! name) as [[q | | |] |]; simpl;
    try (split; [lra | reflexivity]); try (split; lra).
  destruct (unit_clamp_normalised q (finite_part (unit_clamp (Fin q))))
    as (Hr & H0 & H1 & Hq).
  { rewrite unit_clamp_fin. reflexivity. }
  assert (Hq' : (q - 0) / (1 - 0) == q) by (field).
  split; [exact Hr |]. rewrite Hq'. auto.
Qed.

Lemma feature_ranges_width :
  Forall (fun entry => fst (snd entry) < snd (snd entry))
    Explainer.feature_ranges.
Proof.
  unfold Explainer.feature_ranges.
  repeat (constructor; [simpl; lra |]). constructor.
Qed.

Lemma dict_get_In {A} (d : list (string * A)) (k : string) (v : A) :
  dict_get d k = Some v -> In (k, v) d.
Proof.
  induction d as [| [k' v'] d IH]; simpl; [discriminate |].
  destruct (String.eqb k' k) eqn:E.
  - apply String.eqb_eq in E. intros [= ->]. subst. left. reflexivity.
  - intros H. right. auto.
Qed.

Lemma feature_range_positive (name : string) (lo hi : Q) :
  dict_get Explainer.feature_ranges name = Some (lo, hi) -> lo < hi.
Proof.
  intros H. apply dict_get_In in H.
  pose proof feature_ranges_width as W.
  rewrite List.Forall_forall in W. apply (W (name, (lo, hi))). exact H.
Qed.

Lemma explainer_entry_normalised (features : gmap string pyfloat)
    (name : string) (lo hi : Q) :
  dict_get Explainer.feature_ranges name = Some (lo, hi) ->
  normalised (features !! name) lo hi (Explainer.prepare_entry features name).
Proof.
  intros Hr. pose proof (feature_range_positive _ _ _ Hr) as Hw.
  unfold normalised, Explainer.prepare_entry, Explainer._normalize_feature.
  rewrite Hr.
  assert (Hpos : Qlt_bool 0 (hi + - lo) = true) by (apply Qlt_bool_true; lra).
  assert (Hneg : Qlt_bool 0 (- (hi + - lo)) = false)
    by (apply Qlt_bool_false; lra).
  assert (Hneg' : Qlt_bool (- (hi + - lo)) 0 = true)
    by (apply Qlt_bool_true; lra).
  destruct (features !! name) as [[q | | |] |]; simpl;
    try (split; [lra | reflexivity]).
  - fold (unit_clamp (Fin ((q + - lo) / (hi + - lo)))).
    destruct (unit_clamp_normalised ((q + - lo) / (hi + - lo))
                (finite_part (unit_clamp (Fin ((q + - lo) / (hi + - lo))))))
      as (Hb & H0 & H1 & Hq).
    { rewrite unit_clamp_fin. reflexivity. }
    assert (E : (q - lo) / (hi - lo) == (q + - lo) / (hi + - lo))
      by reflexivity.
    split; [exact Hb |]. rewrite E. auto.
  - unfold signed_inf. rewrite Hpos. simpl. split; lra.
  - unfold signed_inf. rewrite Hneg, Hneg'. simpl. split; lra.
Qed.

Lemma explainer_vector_entries (features : gmap string pyfloat) :
  Explainer._prepare_feature_vector features
  = map (fun name => (name, Explainer.prepare_entry features name))
      Explainer.feature_names.
Proof. reflexivity. Qed.

(** The explainer's normalised values are finite as well. *)
Lemma normalize_feature_finite (feature_name : string) (value : pyfloat) :
  exists q,
    Explainer._normalize_feature feature_name value = Fin q /\ 0 <= q <= 1.
Proof.
  unfold Explainer._normalize_feature.
  destruct (dict_get Explainer.feature_ranges feature_name) as [[lo hi] |];
    apply unit_clamp_finite.
Qed.

(** C5, as amended.  Both normalisers give every enumerated feature a value
    of [0, 1]: exactly 0.5 for a missing or NaN entry, 1 for plus infinity,
    0 for minus infinity, and for a finite entry the value rescaled by the
    range of the feature (the scorer: no rescaling) and clamped to [0, 1]. *)
Theorem normalisers_bounded_and_neutral (features : gmap string pyfloat) :
  Forall2 (fun name v => normalised (features !! name) 0 1 v)
    Scorer.feature_names (Scorer._prepare_feature_vector features)
  /\ Forall2
       (fun name kv =>
          fst kv = name
          /\ exists lo hi,
               dict_get Explainer.feature_ranges name = Some (lo, hi)
               /\ normalised (features !! name) lo hi (snd kv))
       Explainer.feature_names (Explainer._prepare_feature_vector features).
Proof.
  split.
  - unfold Scorer._prepare_feature_vector, Scorer.feature_names. simpl.
    repeat (constructor; [apply scorer_entry_normalised |]). constructor.
  - rewrite explainer_vector_entries. unfold Explainer.feature_names. simpl.
    repeat (constructor;
            [split; [reflexivity |];
             eexists; eexists; split; [reflexivity |];
             apply explainer_entry_normalised; reflexivity |]).
    constructor.
Qed.

(** C5, the claim as stated fails: an entry of plus infinity is not NaN, so
    both normalisers clamp it to 1 instead of replacing it by 0.5. *)
Lemma infinite_entry_not_neutral :
  nth_error (Scorer._prepare_feature_vector {[ "wordCount" := PInf ]}) 0
  = Some 1.0
  /\ dict_get (Explainer._prepare_feature_vector {[ "wordCount" := PInf ]})
       "wordCount" = Some 1.0
  /\ ~ 1.0 == 0.5.
Proof.
  split; [vm_compute; reflexivity |].
  split; [vm_compute; reflexivity |].
  intros H. discriminate H.
Qed.

(** ** The confidence estimator *)

Lemma scorer_vector_length (features : gmap string pyfloat) :
  length (Scorer._prepare_feature_vector features) = 12%nat.
Proof. reflexivity. Qed.

Lemma non_null_features_all (feature_vector : list Q) :
  Scorer.non_null_features feature_vector = length feature_vector.
Proof.
  unfold Scorer.non_null_features.
  induction feature_vector as [| v l IH]; simpl; [reflexivity |].
  f_equal. exact IH.
Qed.

Lemma completeness_bonus_constant (features : gmap string pyfloat) :
  Scorer.completeness_bonus (Scorer._prepare_feature_vector features) == 0.2.
Proof.
  unfold Scorer.completeness_bonus.
  rewrite non_null_features_all, scorer_vector_length. reflexivity.
Qed.

(** C6, the code at the failing input: for the empty raw mapping the
    completeness bonus is 0.2, not 0, because the features are counted in
    the vector in which every missing entry is already 0.5. *)
Theorem completeness_bonus_of_empty_mapping :
  Scorer.completeness_bonus (Scorer._prepare_feature_vector no_features) == 0.2
  /\ Scorer.non_null_features (Scorer._prepare_feature_vector no_features)
     = 12%nat
  /\ ~ 0.2 == 0.
Proof.
  split; [apply completeness_bonus_constant |].
  split; [reflexivity |].
  intros H. discriminate H.
Qed.

(** ** The per-model prediction *)

(** X13.  What the loop of [_simulate_model_prediction] adds up: the weight at
    position [i] of [feature_importance] meets the value at position [i]
    of the vector, which is the value of the [i]-th name of
    [feature_names]. *)
Lemma base_score_pairs_by_position (features : gmap string pyfloat)
    (ty : string) (acc : option Q) :
  let value := Scorer.prepare_entry features in
  exists s,
    Scorer.base_score (Scorer._prepare_feature_vector features)
      {| Scorer.mi_type := Some ty; Scorer.mi_accuracy := acc |} = inr s
    /\ s == ( value "wordCount" * 0.22
            + value "sentenceCount" * 0.18
            + value "averageWordsPerSentence" * 0.15
            + value "typeTokenRatio" * 0.12
            + value "vocabularySize" * 0.10
            + value "lexicalDiversity" * 0.08
            + value "complexWordRatio" * 0.06
            + value "averageWordLength" * 0.04
            + value "cognitiveHealthScore" * 0.03
            + value "syntacticComplexity" * 0.02 ) * bias_multiplier ty.
Proof.
  intros value. eexists. split; [reflexivity |].
  unfold Scorer.apply_bias, bias_multiplier. fold value.
  destruct (String.eqb ty "RandomForest"); [ring |].
  destruct (String.eqb ty "GradientBoosting"); [ring |].
  destruct (String.eqb ty "NeuralNetwork"); [ring |].
  destruct (String.eqb ty "SVM"); ring.
Qed.

(** C3, the code at the failing input: with cognitiveHealthScore 1.0 and
    every other feature missing, the random-forest prediction before noise
    is 0.54075, because the value 1.0 meets the weight 0.03 of
    averageWordLength; the sum of own value times own weight is 0.6405. *)
Theorem prediction_pairs_wrong_features :
  exists s,
    Scorer.base_score (Scorer._prepare_feature_vector high_health)
      (Scorer._create_mock_model "RandomForest" 0.89) = inr s
    /\ s == 0.54075
    /\ spec_contribution (Scorer._prepare_feature_vector high_health)
         "RandomForest" == 0.6405
    /\ ~ s == 0.6405.
Proof.
  eexists. split; [vm_compute; reflexivity |].
  split; [reflexivity |].
  split; [vm_compute; reflexivity |].
  intros H. discriminate H.
Qed.

(** ** The ensemble path and the fallback path *)

Lemma ensemble_score_bounds (models : list (string * Scorer.model_info))
    (predictions : list (string * Q)) (s : Q) :
  Scorer._calculate_ensemble_score models predictions = inr s -> 0 <= s <= 1.
Proof.
  unfold Scorer._calculate_ensemble_score.
  destruct predictions as [| p rest]; [intros [= <-]; lra |].
  destruct (Scorer.weighted_loop models (p :: rest) 0.0 0.0)
    as [e | [ws tw]]; [discriminate |].
  destruct (Qeq_bool tw 0); intros [= <-]; [lra |].
  pose proof (py_clamp_bounds 0.0 1.0 (ws / tw)). lra.
Qed.

Lemma confidence_bounds (np_sqrt : Q -> Q) (predictions : list (string * Q))
    (feature_vector : list Q) :
  0.3 <= Scorer._calculate_prediction_confidence np_sqrt predictions
           feature_vector <= 0.95.
Proof.
  unfold Scorer._calculate_prediction_confidence.
  destruct predictions as [| p rest]; [lra |].
  apply py_clamp_bounds. lra.
Qed.

(** The two exits of [score_features]. *)
Lemma score_features_paths (np_sqrt : Q -> Q)
    (models : list (string * Scorer.model_info))
    (features : gmap string pyfloat) (opts : options) (g : rng) :
  let feature_vector := Scorer._prepare_feature_vector features in
  let predictions :=
    fst (Scorer._get_ensemble_predictions models feature_vector g) in
  let r := fst (Scorer.score_features np_sqrt models features opts g) in
  match Scorer._calculate_ensemble_score models predictions with
  | inr s =>
      Scorer.riskScore r = Fin s
      /\ Scorer.confidence r
         = Scorer._calculate_prediction_confidence np_sqrt predictions
             feature_vector
      /\ Scorer.modelType r = "ensemble"
      /\ Scorer.error r = None
  | inl e => r = Scorer._fallback_scoring features (str_exn e)
  end.
Proof.
  cbv zeta. unfold Scorer.score_features.
  destruct (Scorer._get_ensemble_predictions models
              (Scorer._prepare_feature_vector features) g) as [preds g'].
  simpl.
  destruct (Scorer._calculate_ensemble_score models preds); simpl; auto.
Qed.

Lemma Qmax_zero_cases (x : Q) :
  (0 < x /\ Qmax 0 x == x) \/ (x <= 0 /\ Qmax 0 x == 0).
Proof. destruct (Q.max_spec 0 x) as [[H E] | [H E]]; auto. Qed.

Lemma py_fmax_zero (x y : Q) :
  x == y -> feq (py_fmax (Fin 0.0) (Fin x)) (Fin (Qmax 0 y)).
Proof.
  intros Hxy. unfold py_fmax. simpl.
  destruct (Qmax_zero_cases y) as [[H E] | [H E]]; case_lt; simpl; lra.
Qed.

(** C8, as amended.  The fallback result has confidence 0.4, model type
    "fallback" and the error text it was given; its risk score is 0.5, or
    cognitiveHealthScore * 0.7 + 0.5 * 0.3 when that feature is present in
    the raw mapping, and, when hesitationRatio is present, that score less
    hesitationRatio * 0.2, floored at 0.  The rule is stated for every raw
    mapping: [blended] and [penalised] also say what float arithmetic makes
    of an infinite or NaN entry.  [score_features] returns exactly this
    result when the ensemble score raises. *)
Theorem fallback_scoring_rule (np_sqrt : Q -> Q)
    (models : list (string * Scorer.model_info))
    (features : gmap string pyfloat) (opts : options) (g : rng)
    (error_msg : string) :
  let r := Scorer._fallback_scoring features error_msg in
  Scorer.confidence r = 0.4
  /\ Scorer.modelType r = "fallback"
  /\ Scorer.error r = Some error_msg
  /\ feq (Scorer.riskScore r)
       (penalised (blended (features !! "cognitiveHealthScore"))
          (features !! "hesitationRatio"))
  /\ match Scorer._calculate_ensemble_score models
             (fst (Scorer._get_ensemble_predictions models
                     (Scorer._prepare_feature_vector features) g)) with
     | inl e =>
         fst (Scorer.score_features np_sqrt models features opts g)
         = Scorer._fallback_scoring features (str_exn e)
     | inr _ =>
         Scorer.modelType
           (fst (Scorer.score_features np_sqrt models features opts g))
         = "ensemble"
     end.
Proof.
  cbv zeta. split; [reflexivity |]. split; [reflexivity |].
  split; [reflexivity |]. split.
  - unfold Scorer._fallback_scoring, Scorer.fallback_primary,
      Scorer.fallback_hesitation.
    destruct (features !! "cognitiveHealthScore") as [[c | | |] |];
      destruct (features !! "hesitationRatio") as [[h | | |] |];
      cbn [Scorer.riskScore blended penalised fmul fadd fopp fsub];
      try (apply py_fmax_zero; reflexivity);
      try (vm_compute; reflexivity);
      try exact I.
  - pose proof (score_features_paths np_sqrt models features opts g) as P.
    cbv zeta in P.
    destruct (Scorer._calculate_ensemble_score models _); [exact P | apply P].
Qed.

(** C8, the claim as stated fails: with hesitationRatio 1.0 and no
    cognitiveHealthScore in the raw mapping the fallback risk score is 0.3,
    not 0.5. *)
Lemma fallback_applies_hesitation_penalty :
  full_hesitation !! "cognitiveHealthScore" = None
  /\ feq (Scorer.riskScore (Scorer._fallback_scoring full_hesitation "failure"))
       (Fin 0.3)
  /\ ~ feq (Scorer.riskScore
              (Scorer._fallback_scoring full_hesitation "failure"))
         (Fin 0.5).
Proof.
  split; [vm_compute; reflexivity |].
  split; [vm_compute; reflexivity |].
  vm_compute. intros H. discriminate H.
Qed.

Lemma fallback_score_bounds (features : gmap string pyfloat)
    (error_msg : string) :
  raw_in_unit features "cognitiveHealthScore" ->
  raw_in_unit features "hesitationRatio" ->
  exists q,
    Scorer.riskScore (Scorer._fallback_scoring features error_msg) = Fin q
    /\ 0 <= q <= 1.
Proof.
  unfold raw_in_unit, Scorer._fallback_scoring, Scorer.fallback_primary,
    Scorer.fallback_hesitation.
  destruct (features !! "cognitiveHealthScore") as [[c | | |] |];
    destruct (features !! "hesitationRatio") as [[h | | |] |];
    intros Hc Hh; try contradiction;
    cbn [Scorer.riskScore fmul fadd fopp fsub]; unfold py_fmax; simpl;
    try case_lt; eexists; (split; [reflexivity | lra]).
Qed.

(** C4, as amended.  On the ensemble path the risk score lies in [0, 1] and
    the confidence in [0.3, 0.95] for every raw mapping; on the fallback
    path they do when the raw cognitiveHealthScore and hesitationRatio,
    where present, are numbers of [0, 1]. *)
Theorem score_and_confidence_ranges (np_sqrt : Q -> Q)
    (models : list (string * Scorer.model_info))
    (features : gmap string pyfloat) (opts : options) (g : rng) :
  let r := fst (Scorer.score_features np_sqrt models features opts g) in
  (Scorer.modelType r = "fallback" ->
   raw_in_unit features "cognitiveHealthScore"
   /\ raw_in_unit features "hesitationRatio") ->
  exists q,
    Scorer.riskScore r = Fin q /\ 0 <= q <= 1
    /\ 0.3 <= Scorer.confidence r <= 0.95.
Proof.
  cbv zeta. intros Hraw.
  pose proof (score_features_paths np_sqrt models features opts g) as P.
  cbv zeta in P.
  destruct (Scorer._calculate_ensemble_score models _) as [e | s] eqn:E.
  - rewrite P in Hraw |- *.
    destruct (Hraw eq_refl) as [Hc Hh].
    destruct (fallback_score_bounds features (str_exn e) Hc Hh) as (q & Hq & Hb).
    exists q. split; [exact Hq |]. split; [exact Hb |]. simpl. lra.
  - destruct P as (Hs & Hconf & _).
    exists s. split; [exact Hs |].
    split; [eapply ensemble_score_bounds; exact E |].
    rewrite Hconf. apply confidence_bounds.
Qed.

Lemma score_and_confidence_ranges_witness :
  (Scorer.modelType
     (fst (Scorer.score_features id_sqrt no_accuracy good_health seeded quiet))
   = "fallback"
   /\ raw_in_unit good_health "cognitiveHealthScore"
   /\ raw_in_unit good_health "hesitationRatio")
  /\ exists q,
       Scorer.riskScore
         (fst (Scorer.score_features id_sqrt no_accuracy good_health seeded
                 quiet)) = Fin q
       /\ 0 <= q <= 1
       /\ 0.3 <= Scorer.confidence
                   (fst (Scorer.score_features id_sqrt no_accuracy good_health
                           seeded quiet)) <= 0.95.
Proof.
  assert (H : raw_in_unit good_health "cognitiveHealthScore"
              /\ raw_in_unit good_health "hesitationRatio").
  { split; vm_compute; [split; discriminate | exact I]. }
  split.
  - split; [vm_compute; reflexivity | exact H].
  - apply (score_and_confidence_ranges id_sqrt no_accuracy good_health seeded
             quiet).
    intros _. exact H.
Defined.

(** C4, the claim as stated fails on the fallback path: the raw
    cognitiveHealthScore 2.0 gives the fallback risk score 1.55.  The
    fallback is entered here by a model entry without ['accuracy']. *)
Lemma fallback_score_above_one :
  feq (Scorer.riskScore (Scorer._fallback_scoring out_of_range_health "failure"))
    (Fin 1.55)
  /\ fst (Scorer.score_features id_sqrt no_accuracy out_of_range_health seeded
            quiet)
     = Scorer._fallback_scoring out_of_range_health "'accuracy'"
  /\ ~ 1.55 <= 1.
Proof.
  split; [vm_compute; reflexivity |].
  split; [vm_compute; reflexivity |].
  intros H. vm_compute in H. apply H. reflexivity.
Qed.

(** C2, as amended.  When no model prediction survives, [score_features]
    returns the risk score 0.5 and the confidence 0.3 in a result whose
    model type is "ensemble" and which carries no error text. *)
Theorem empty_ensemble_result (np_sqrt : Q -> Q)
    (models : list (string * Scorer.model_info))
    (features : gmap string pyfloat) (opts : options) (g : rng) :
  fst (Scorer._get_ensemble_predictions models
         (Scorer._prepare_feature_vector features) g) = [] ->
  let r := fst (Scorer.score_features np_sqrt models features opts g) in
  Scorer.riskScore r = Fin 0.5
  /\ Scorer.confidence r = 0.3
  /\ Scorer.modelPredictions r = []
  /\ Scorer.modelType r = "ensemble"
  /\ Scorer.error r = None.
Proof.
  intros H. cbv zeta. unfold Scorer.score_features.
  destruct (Scorer._get_ensemble_predictions models
              (Scorer._prepare_feature_vector features) g) as [preds g'].
  simpl in H. subst preds. simpl. repeat split.
Qed.

Lemma empty_ensemble_result_witness :
  fst (Scorer._get_ensemble_predictions no_type
         (Scorer._prepare_feature_vector good_health) quiet) = []
  /\ Scorer.riskScore
       (fst (Scorer.score_features id_sqrt no_type good_health seeded quiet))
     = Fin 0.5
  /\ Scorer.confidence
       (fst (Scorer.score_features id_sqrt no_type good_health seeded quiet))
     = 0.3
  /\ Scorer.modelPredictions
       (fst (Scorer.score_features id_sqrt no_type good_health seeded quiet))
     = []
  /\ Scorer.modelType
       (fst (Scorer.score_features id_sqrt no_type good_health seeded quiet))
     = "ensemble"
  /\ Scorer.error
       (fst (Scorer.score_features id_sqrt no_type good_health seeded quiet))
     = None.
Proof.
  split; [vm_compute; reflexivity |].
  apply (empty_ensemble_result id_sqrt no_type good_health seeded quiet).
  vm_compute. reflexivity.
Defined.

(** C2, the claim as stated fails: with an empty model table no prediction
    survives and the result is tagged "ensemble", not "fallback". *)
Lemma empty_ensemble_not_tagged_fallback :
  fst (Scorer._get_ensemble_predictions []
         (Scorer._prepare_feature_vector no_features) quiet) = []
  /\ Scorer.modelType
       (fst (Scorer.score_features id_sqrt [] no_features seeded quiet))
     = "ensemble"
  /\ Scorer.error
       (fst (Scorer.score_features id_sqrt [] no_features seeded quiet))
     = None
  /\ "ensemble" <> "fallback".
Proof.
  split; [reflexivity |]. split; [reflexivity |]. split; [reflexivity |].
  discriminate.
Qed.

(** ** The ensemble score as a weighted mean *)

Lemma fold_plus_shift (xs : list Q) (a : Q) :
  fold_left Qplus xs a == a + py_sum xs.
Proof.
  unfold py_sum. revert a.
  induction xs as [| x xs IH]; intros a; simpl; [ring |].
  rewrite (IH (a + x)), (IH (0 + x)). ring.
Qed.

Lemma py_sum_cons (x : Q) (xs : list Q) : py_sum (x :: xs) == x + py_sum xs.
Proof. unfold py_sum at 1. simpl. rewrite fold_plus_shift. ring. Qed.

Lemma py_sum_nil : py_sum [] == 0.
Proof. reflexivity. Qed.

Lemma fold_min_init (ps : list Q) (p : Q) : fold_left Qmin ps p <= p.
Proof.
  revert p. induction ps as [| y ps IH]; intros p; simpl; [lra |].
  eapply Qle_trans; [apply IH | apply Q.le_min_l].
Qed.

Lemma fold_min_le (ps : list Q) (p x : Q) :
  In x (p :: ps) -> fold_left Qmin ps p <= x.
Proof.
  revert p. induction ps as [| y ps IH]; intros p Hin.
  - destruct Hin as [E | []]. rewrite <- E. simpl. lra.
  - simpl. destruct Hin as [E | [E | Hin]].
    + rewrite <- E.
      eapply Qle_trans; [apply fold_min_init | apply Q.le_min_l].
    + rewrite <- E.
      eapply Qle_trans; [apply fold_min_init | apply Q.le_min_r].
    + apply IH. right. exact Hin.
Qed.

Lemma fold_max_init (ps : list Q) (p : Q) : p <= fold_left Qmax ps p.
Proof.
  revert p. induction ps as [| y ps IH]; intros p; simpl; [lra |].
  eapply Qle_trans; [apply Q.le_max_l | apply IH].
Qed.

Lemma fold_max_ge (ps : list Q) (p x : Q) :
  In x (p :: ps) -> x <= fold_left Qmax ps p.
Proof.
  revert p. induction ps as [| y ps IH]; intros p Hin.
  - destruct Hin as [E | []]. rewrite <- E. simpl. lra.
  - simpl. destruct Hin as [E | [E | Hin]].
    + rewrite <- E.
      eapply Qle_trans; [apply Q.le_max_l | apply fold_max_init].
    + rewrite <- E.
      eapply Qle_trans; [apply Q.le_max_r | apply fold_max_init].
    + apply IH. right. exact Hin.
Qed.

Lemma prediction_between_extremes (predictions : list (string * Q))
    (kv : string * Q) :
  In kv predictions ->
  min_prediction predictions <= snd kv <= max_prediction predictions.
Proof.
  intros Hin. apply (in_map snd) in Hin.
  unfold min_prediction, max_prediction, dict_values.
  destruct (map snd predictions) as [| p ps]; [destruct Hin |].
  split; [apply fold_min_le | apply fold_max_ge]; exact Hin.
Qed.

Section WeightedMean.

Variable models : list (string * Scorer.model_info).

Lemma weighted_loop_sums (predictions : list (string * Q)) (ws tw : Q) :
  resolvable models predictions ->
  exists ws' tw',
    Scorer.weighted_loop models predictions ws tw = inr (ws', tw')
    /\ ws' == ws + weighted_total models predictions
    /\ tw' == tw + weight_total models predictions.
Proof.
  unfold weighted_total, weight_total. revert ws tw.
  induction predictions as [| [name p] rest IH]; intros ws tw Hres.
  - exists ws, tw. simpl. rewrite py_sum_nil. repeat split; ring.
  - destruct (Hres (name, p) (or_introl eq_refl)) as (mi & a & Hmi & Ha).
    simpl in Hmi.
    destruct (IH (ws + p * a) (tw + a)) as (ws' & tw' & Hloop & Hws & Htw).
    { intros kv Hin. apply Hres. right. exact Hin. }
    exists ws', tw'. simpl. rewrite Hmi, Ha. split; [exact Hloop |].
    rewrite !py_sum_cons. simpl. unfold accuracy_of at 1 3.
    rewrite Hmi, Ha. split; [rewrite Hws | rewrite Htw]; ring.
Qed.

Lemma weighted_between (predictions : list (string * Q)) (lo hi : Q) :
  (forall kv, In kv predictions ->
     lo <= snd kv <= hi /\ 0 < accuracy_of models (fst kv)) ->
  lo * weight_total models predictions <= weighted_total models predictions
  /\ weighted_total models predictions <= hi * weight_total models predictions
  /\ 0 <= weight_total models predictions.
Proof.
  unfold weighted_total, weight_total.
  induction predictions as [| [name p] rest IH]; intros H.
  - simpl. rewrite !py_sum_nil. lra.
  - destruct (H (name, p) (or_introl eq_refl)) as [Hp Ha]. simpl in Hp, Ha.
    destruct IH as (Hlo & Hhi & Hpos).
    { intros kv Hin. apply H. right. exact Hin. }
    simpl. rewrite !py_sum_cons. nra.
Qed.

Lemma weights_positive (predictions : list (string * Q)) :
  predictions <> [] ->
  (forall kv, In kv predictions -> 0 < accuracy_of models (fst kv)) ->
  0 < weight_total models predictions.
Proof.
  unfold weight_total.
  destruct predictions as [| [name p] rest]; [congruence |].
  intros _ H. simpl. rewrite py_sum_cons.
  pose proof (H (name, p) (or_introl eq_refl)) as Ha. simpl in Ha.
  assert (Hpos : 0 <= weight_total models rest).
  { clear Ha. unfold weight_total.
    induction rest as [| kv rest IH]; [cbv; discriminate |].
    simpl. rewrite py_sum_cons.
    pose proof (H kv (or_intror (or_introl eq_refl))) as Hkv.
    assert (0 <= py_sum (map (fun kv => accuracy_of models (fst kv)) rest)).
    { apply IH. intros kv' [E | Hin]; apply H; [left | right; right]; auto. }
    lra. }
  unfold weight_total in Hpos. lra.
Qed.

End WeightedMean.

(** C10.  For a non-empty map of predictions of [0, 1], each of a model of
    the table with a positive accuracy, [_calculate_ensemble_score] returns
    the accuracy-weighted mean of the predictions, which lies between the
    smallest and the largest of them. *)
Theorem ensemble_score_is_weighted_mean
    (models : list (string * Scorer.model_info))
    (predictions : list (string * Q)) :
  predictions <> [] ->
  (forall kv, In kv predictions ->
     0 <= snd kv <= 1
     /\ exists mi a,
          dict_get models (fst kv) = Some mi
          /\ Scorer.mi_accuracy mi = Some a /\ 0 < a) ->
  exists s,
    Scorer._calculate_ensemble_score models predictions = inr s
    /\ s == weighted_mean models predictions
    /\ min_prediction predictions <= s <= max_prediction predictions.
Proof.
  intros Hne H.
  assert (Hres : resolvable models predictions).
  { intros kv Hin. destruct (H kv Hin) as (_ & mi & a & Hmi & Ha & _).
    exists mi, a. auto. }
  assert (Hacc : forall kv, In kv predictions ->
                   0 < accuracy_of models (fst kv)).
  { intros kv Hin. destruct (H kv Hin) as (_ & mi & a & Hmi & Ha & Hpos).
    unfold accuracy_of. rewrite Hmi, Ha. exact Hpos. }
  destruct (weighted_loop_sums models predictions 0.0 0.0 Hres)
    as (ws & tw & Hloop & Hws & Htw).
  pose proof (weights_positive models predictions Hne Hacc) as Hpos.
  destruct (weighted_between models predictions 0 1) as (H0 & H1 & _).
  { intros kv Hin. split; [apply (H kv Hin) | apply Hacc; exact Hin]. }
  destruct (weighted_between models predictions
              (min_prediction predictions) (max_prediction predictions))
    as (Hlo & Hhi & _).
  { intros kv Hin.
    split; [apply prediction_between_extremes | apply Hacc]; exact Hin. }
  set (W := weighted_total models predictions) in *.
  set (A := weight_total models predictions) in *.
  assert (Hws' : ws == W) by (rewrite Hws; ring).
  assert (Htw' : tw == A) by (rewrite Htw; ring).
  assert (Hmean : ws / tw == weighted_mean models predictions).
  { unfold weighted_mean. fold W A. rewrite Hws', Htw'. reflexivity. }
  assert (Hbetween : forall lo hi, lo * A <= W -> W <= hi * A ->
                       lo <= ws / tw <= hi).
  { intros lo hi Hl Hh. rewrite Hws', Htw'. split.
    - apply Qle_shift_div_l; assumption.
    - apply Qle_shift_div_r; assumption. }
  exists (py_max 0.0 (py_min 1.0 (ws / tw))).
  assert (Hclamp : py_max 0.0 (py_min 1.0 (ws / tw)) == ws / tw).
  { apply py_clamp_id. pose proof (Hbetween 0 1 H0 H1). lra. }
  split.
  - unfold Scorer._calculate_ensemble_score.
    destruct predictions as [| kv rest]; [congruence |].
    rewrite Hloop.
    destruct (Qeq_bool tw 0) eqn:E; [| reflexivity].
    apply Qeq_bool_iff in E. lra.
  - split; [rewrite Hclamp; exact Hmean |].
    rewrite Hclamp. apply Hbetween; assumption.
Qed.

Lemma ensemble_score_is_weighted_mean_witness :
  three_predictions <> []
  /\ (forall kv, In kv three_predictions ->
        0 <= snd kv <= 1
        /\ exists mi a,
             dict_get Scorer._load_models (fst kv) = Some mi
             /\ Scorer.mi_accuracy mi = Some a /\ 0 < a)
  /\ exists s,
       Scorer._calculate_ensemble_score Scorer._load_models three_predictions
       = inr s
       /\ s == weighted_mean Scorer._load_models three_predictions
       /\ min_prediction three_predictions <= s
          <= max_prediction three_predictions.
Proof.
  assert (Hne : three_predictions <> []) by discriminate.
  assert (H : forall kv, In kv three_predictions ->
                0 <= snd kv <= 1
                /\ exists mi a,
                     dict_get Scorer._load_models (fst kv) = Some mi
                     /\ Scorer.mi_accuracy mi = Some a /\ 0 < a).
  { intros kv [<- | [<- | [<- | []]]];
      (split; [simpl; lra |]);
      eexists; eexists; (split; [reflexivity |]);
      (split; [reflexivity | reflexivity]). }
  split; [exact Hne |]. split; [exact H |].
  exact (ensemble_score_is_weighted_mean Scorer._load_models three_predictions
           Hne H).
Defined.

(** ** Attribution: the sum of the emitted values *)

Lemma py_sum_scaled (xs : list Q) (c : Q) :
  py_sum (map (fun x => x * c) xs) == py_sum xs * c.
Proof.
  induction xs as [| x xs IH]; [reflexivity |].
  simpl. rewrite !py_sum_cons, IH. ring.
Qed.

Lemma tree_shap_cases (feature_vector : list (string * Q))
    (prediction : gmap string Q) (g : rng) :
  let shap_values := perturbed_contributions feature_vector prediction g in
  let total_contribution :=
    Explainer.risk_score_of prediction - Explainer.expected_value in
  let current_sum := py_sum (dict_values shap_values) in
  (~ current_sum == 0
   /\ fst (Explainer._calculate_tree_shap feature_vector prediction g)
      = map (fun kv => (fst kv, snd kv * (total_contribution / current_sum)))
          shap_values)
  \/ (current_sum == 0
      /\ fst (Explainer._calculate_tree_shap feature_vector prediction g)
         = shap_values).
Proof.
  cbv zeta. unfold perturbed_contributions, Explainer._calculate_tree_shap.
  destruct (Explainer.tree_loop _ _ feature_vector [] g) as [sv g'].
  simpl. destruct (Qeq_bool (py_sum (dict_values sv)) 0) eqn:E; simpl.
  - right. apply Qeq_bool_iff in E. auto.
  - left. split; [| reflexivity].
    intros H. apply Qeq_bool_iff in H. congruence.
Qed.

(** The two exits of [generate_shap_explanation]. *)
Lemma generate_shap_explanation_paths (env : Explainer.environment)
    (features : gmap string pyfloat) (prediction : gmap string Q)
    (opts : options) (g : rng) :
  let r := Explainer.generate_shap_explanation env features prediction opts g in
  match explanationTypes opts, Explainer.makedirs env (outputPath opts) with
  | _ :: _, inl e =>
      r = Explainer._fallback_explanation features prediction (str_exn e)
  | _, _ =>
      Explainer.shapValues r
      = fst (Explainer._calculate_shap_values env
               (Explainer._prepare_feature_vector features) prediction g)
      /\ Explainer.baseValue r = 0.5
      /\ Explainer.modelType r = "ensemble"
      /\ Explainer.error r = None
  end.
Proof.
  cbv zeta. unfold Explainer.generate_shap_explanation.
  generalize (Explainer._prepare_feature_vector features) as vec. intros vec.
  destruct (Explainer._calculate_shap_values env vec prediction g) as [sv g'].
  destruct (explanationTypes opts) as [| ty tys].
  - destruct (Explainer.makedirs env (outputPath opts)); repeat split.
  - destruct (Explainer.makedirs env (outputPath opts)); repeat split.
Qed.

(** C1, the code at the failing input.  For cognitiveHealthScore 1.0 and
    riskScore 0.8 the raw contributions sum to 0.125, so the call is not
    degenerate, and riskScore - 0.5 is 0.3.  The linear approximation, which
    produces the values when the shap package is missing and again in the
    fallback explanation, has no counterpart of the adjustment that ends
    [_calculate_tree_shap]: the emitted values sum to 3/88, and the gap
    exceeds 1e-6, absolutely and relative to 0.3. *)
Theorem approximate_path_breaks_conservation :
  raw_contribution_sum (Explainer._prepare_feature_vector high_health) == 0.125
  /\ Explainer.risk_score_of risk_08 - Explainer.expected_value == 0.3
  /\ py_sum (dict_values
               (Explainer.shapValues
                  (Explainer.generate_shap_explanation without_shap high_health
                     risk_08 seeded jitter))) == 3 # 88
  /\ Explainer.modelType
       (Explainer.generate_shap_explanation read_only high_health risk_08
          with_charts jitter) = "fallback"
  /\ py_sum (dict_values
               (Explainer.shapValues
                  (Explainer.generate_shap_explanation read_only high_health
                     risk_08 with_charts jitter))) == 3 # 88
  /\ 0.000001 < Qabs ((3 # 88) - 0.3)
  /\ 0.000001 * Qabs 0.3 < Qabs ((3 # 88) - 0.3).
Proof.
  split; [vm_compute; reflexivity |].
  split; [vm_compute; reflexivity |].
  split; [vm_compute; reflexivity |].
  split; [vm_compute; reflexivity |].
  split; [vm_compute; reflexivity |].
  split; vm_compute; reflexivity.
Qed.

(** ** Attribution: degenerate contributions *)







(** ** Dependence on the generator *)

Lemma same_draws_tail (n : nat) (g1 g2 : rng) :
  same_draws (S n) g1 g2 ->
  same_draws n (fun i => g1 (S i)) (fun i => g2 (S i)).
Proof. intros H i Hi. apply H. lia. Qed.

Lemma same_draws_fewer (n m : nat) (g1 g2 : rng) :
  (m <= n)%nat -> same_draws n g1 g2 -> same_draws m g1 g2.
Proof. intros Hle H i Hi. apply H. lia. Qed.

Lemma ensemble_loop_same_draws (feature_vector : list Q)
    (models : list (string * Scorer.model_info))
    (predictions : list (string * Q)) (g1 g2 : rng) :
  same_draws (length models) g1 g2 ->
  fst (Scorer.ensemble_loop feature_vector models predictions g1)
  = fst (Scorer.ensemble_loop feature_vector models predictions g2).
Proof.
  revert predictions g1 g2.
  induction models as [| [name mi] rest IH]; intros predictions g1 g2 H;
    [reflexivity |].
  simpl. unfold Scorer._simulate_model_prediction.
  destruct (Scorer.base_score feature_vector mi) as [e | base].
  - apply IH. apply (same_draws_fewer (S (length rest))); [lia | exact H].
  - simpl. rewrite (H 0%nat) by (simpl; lia).
    apply IH. apply same_draws_tail. exact H.
Qed.

Lemma tree_loop_same_draws (total_contribution weighted_sum : Q)
    (items shap_values : list (string * Q)) (g1 g2 : rng) :
  same_draws (length items) g1 g2 ->
  fst (Explainer.tree_loop total_contribution weighted_sum items shap_values g1)
  = fst (Explainer.tree_loop total_contribution weighted_sum items shap_values
           g2).
Proof.
  revert shap_values g1 g2.
  induction items as [| [name value] rest IH]; intros shap_values g1 g2 H;
    [reflexivity |].
  simpl. rewrite (H 0%nat) by (simpl; lia).
  apply IH. apply same_draws_tail. exact H.
Qed.

Lemma tree_shap_same_draws (feature_vector : list (string * Q))
    (prediction : gmap string Q) (g1 g2 : rng) :
  same_draws (length feature_vector) g1 g2 ->
  fst (Explainer._calculate_tree_shap feature_vector prediction g1)
  = fst (Explainer._calculate_tree_shap feature_vector prediction g2).
Proof.
  intros H. unfold Explainer._calculate_tree_shap.
  pose proof (tree_loop_same_draws
                (Explainer.risk_score_of prediction - Explainer.expected_value)
                (Explainer.abs_weight_sum feature_vector) feature_vector []
                g1 g2 H) as E.
  destruct (Explainer.tree_loop _ _ feature_vector [] g1) as [sv1 g1'].
  destruct (Explainer.tree_loop _ _ feature_vector [] g2) as [sv2 g2'].
  simpl in E. subst sv2.
  destruct (Qeq_bool (py_sum (dict_values sv1)) 0); reflexivity.
Qed.

Lemma score_features_same_draws (np_sqrt : Q -> Q)
    (models : list (string * Scorer.model_info))
    (features : gmap string pyfloat) (opts1 opts2 : options) (g1 g2 : rng) :
  same_draws (length models) g1 g2 ->
  fst (Scorer.score_features np_sqrt models features opts1 g1)
  = fst (Scorer.score_features np_sqrt models features opts2 g2).
Proof.
  intros H. unfold Scorer.score_features, Scorer._get_ensemble_predictions.
  pose proof (ensemble_loop_same_draws
                (Scorer._prepare_feature_vector features) models [] g1 g2 H)
    as E.
  destruct (Scorer.ensemble_loop _ models [] g1) as [p1 g1'].
  destruct (Scorer.ensemble_loop _ models [] g2) as [p2 g2'].
  simpl in E. subst p2.
  destruct (Scorer._calculate_ensemble_score models p1); reflexivity.
Qed.

Lemma shap_explanation_same_draws (env : Explainer.environment)
    (features : gmap string pyfloat) (prediction : gmap string Q)
    (seed1 seed2 : option Z) (types : list string) (path : option string)
    (g1 g2 : rng) :
  same_draws 13 g1 g2 ->
  Explainer.generate_shap_explanation env features prediction
    {| noiseSeed := seed1; explanationTypes := types; outputPath := path |} g1
  = Explainer.generate_shap_explanation env features prediction
      {| noiseSeed := seed2; explanationTypes := types; outputPath := path |}
      g2.
Proof.
  intros H.
  unfold Explainer.generate_shap_explanation, Explainer._calculate_shap_values.
  cbn [explanationTypes outputPath].
  pose proof (tree_shap_same_draws (Explainer._prepare_feature_vector features)
                prediction g1 g2 H) as E.
  generalize dependent (Explainer._prepare_feature_vector features).
  intros vec E.
  destruct (Explainer.SHAP_AVAILABLE env); simpl; [| reflexivity].
  destruct (Explainer._calculate_tree_shap vec prediction g1) as [sv1 g1'].
  destruct (Explainer._calculate_tree_shap vec prediction g2) as [sv2 g2'].
  simpl in E. subst sv2. reflexivity.
Qed.

(** C7, as amended.  Two scoring calls, and two attribution calls, on the
    same input return the same result when the ambient generator delivers
    the same normal draws to both (one draw a model, thirteen an
    attribution), whatever [noiseSeed] either request carries. *)
Theorem results_determined_by_draws (np_sqrt : Q -> Q)
    (models : list (string * Scorer.model_info))
    (env : Explainer.environment) (features : gmap string pyfloat)
    (prediction : gmap string Q) (seed1 seed2 : option Z)
    (types : list string) (path : option string) (g1 g2 : rng) :
  let opts1 :=
    {| noiseSeed := seed1; explanationTypes := types; outputPath := path |} in
  let opts2 :=
    {| noiseSeed := seed2; explanationTypes := types; outputPath := path |} in
  same_draws (Nat.max (length models) 13) g1 g2 ->
  fst (Scorer.score_features np_sqrt models features opts1 g1)
  = fst (Scorer.score_features np_sqrt models features opts2 g2)
  /\ Explainer.generate_shap_explanation env features prediction opts1 g1
     = Explainer.generate_shap_explanation env features prediction opts2 g2.
Proof.
  intros opts1 opts2 H. split.
  - apply score_features_same_draws.
    apply (same_draws_fewer (Nat.max (length models) 13)); [lia | exact H].
  - apply shap_explanation_same_draws.
    apply (same_draws_fewer (Nat.max (length models) 13)); [lia | exact H].
Qed.

Lemma results_determined_by_draws_witness :
  same_draws (Nat.max (length Scorer._load_models) 13) ramp ramp_then_quiet
  /\ fst (Scorer.score_features id_sqrt Scorer._load_models high_health seeded
            ramp)
     = fst (Scorer.score_features id_sqrt Scorer._load_models high_health
              reseeded ramp_then_quiet)
  /\ Explainer.generate_shap_explanation with_shap high_health risk_08 seeded
       ramp
     = Explainer.generate_shap_explanation with_shap high_health risk_08
         reseeded ramp_then_quiet.
Proof.
  assert (H : same_draws (Nat.max (length Scorer._load_models) 13) ramp
                ramp_then_quiet).
  { intros i Hi. unfold ramp_then_quiet. simpl in Hi.
    destruct (Nat.ltb_spec i 13) as [_ | Hge]; [reflexivity | lia]. }
  split; [exact H |].
  exact (results_determined_by_draws id_sqrt Scorer._load_models with_shap
           high_health risk_08 (Some 42%Z) (Some 7%Z) [] None ramp
           ramp_then_quiet H).
Defined.

(** C7, the claim as stated fails: the second of two scoring calls with the
    same features and the same [noiseSeed] starts from the generator state
    the first one left and returns another risk score; two attribution calls
    with the same input and seed, met by different draws, emit different
    values for wordCount. *)
Lemma same_seed_different_results :
  (exists s1 s2,
     Scorer.riskScore
       (fst (Scorer.score_features id_sqrt Scorer._load_models no_features
               seeded ramp)) = Fin s1
     /\ Scorer.riskScore
          (fst (Scorer.score_features id_sqrt Scorer._load_models no_features
                  seeded
                  (snd (Scorer.score_features id_sqrt Scorer._load_models
                          no_features seeded ramp)))) = Fin s2
     /\ ~ s1 == s2)
  /\ (exists v1 v2,
        dict_get
          (Explainer.shapValues
             (Explainer.generate_shap_explanation with_shap no_features risk_08
                seeded blip)) "wordCount" = Some v1
        /\ dict_get
             (Explainer.shapValues
                (Explainer.generate_shap_explanation with_shap no_features
                   risk_08 seeded late_blip)) "wordCount" = Some v2
        /\ ~ v1 == v2).
Proof.
  split.
  - eexists. eexists. split; [vm_compute; reflexivity |].
    split; [vm_compute; reflexivity |]. vm_compute. discriminate.
  - eexists. eexists. split; [vm_compute; reflexivity |].
    split; [vm_compute; reflexivity |]. vm_compute. discriminate.
Qed.

(** ** The linear-approximation path *)

Lemma abs_weight_sum_keys (feature_vector : list (string * Q)) :
  Explainer.abs_weight_sum feature_vector
  = fold_left (fun acc name => acc + Qabs (Explainer.weight_of name))
      (map fst feature_vector) 0.
Proof.
  unfold Explainer.abs_weight_sum. generalize 0.
  induction feature_vector as [| kv rest IH]; intros acc; simpl;
    [reflexivity | apply IH].
Qed.

(** The weights of the thirteen features sum, in absolute value, to 1.1. *)
Lemma abs_weight_sum_prepared (features : gmap string pyfloat) :
  Explainer.abs_weight_sum (Explainer._prepare_feature_vector features) == 1.1.
Proof.
  rewrite abs_weight_sum_keys, explainer_vector_entries, map_map.
  vm_compute. reflexivity.
Qed.

Lemma approximate_shap_entries (features : gmap string pyfloat)
    (prediction : gmap string Q) :
  let feature_vector := Explainer._prepare_feature_vector features in
  let scale :=
    (Explainer.risk_score_of prediction - Explainer.expected_value)
    / Explainer.abs_weight_sum feature_vector in
  Forall2 (fun kv sv => fst sv = fst kv
                        /\ snd sv == Explainer.base_contribution (fst kv) (snd kv)
                                     * scale)
    feature_vector
    (Explainer._calculate_approximate_shap feature_vector prediction).
Proof.
  cbv zeta. unfold Explainer._calculate_approximate_shap.
  pose proof (abs_weight_sum_prepared features) as HW.
  assert (Hpos : Qlt_bool 0
                   (Explainer.abs_weight_sum
                      (Explainer._prepare_feature_vector features)) = true)
    by (apply Qlt_bool_true; lra).
  generalize dependent (Explainer.abs_weight_sum
                          (Explainer._prepare_feature_vector features)).
  intros W _ Hpos.
  generalize (Explainer.risk_score_of prediction - Explainer.expected_value).
  intros t. rewrite explainer_vector_entries.
  generalize (Explainer.prepare_entry features). intros value.
  unfold Explainer.feature_names. simpl. rewrite Hpos.
  unfold Explainer.base_contribution.
  repeat (constructor; [split; [reflexivity | simpl; ring] |]). constructor.
Qed.

Lemma scaled_entries_sum (feature_vector shap_values : list (string * Q))
    (scale : Q) :
  Forall2 (fun kv sv => fst sv = fst kv
                        /\ snd sv == Explainer.base_contribution (fst kv) (snd kv)
                                     * scale)
    feature_vector shap_values ->
  py_sum (dict_values shap_values)
  == raw_contribution_sum feature_vector * scale.
Proof.
  unfold raw_contribution_sum, dict_values.
  induction 1 as [| kv sv vec svs [_ Hv] _ IH]; simpl.
  - symmetry. apply Qmult_0_l.
  - rewrite !py_sum_cons, IH, Hv. ring.
Qed.

(** X14.  What the linear-approximation path emits sums to the target scaled by
    (sum of raw contributions) / 1.1; it is the target only when the raw
    contributions happen to sum to 1.1. *)
Lemma approximate_path_sum (features : gmap string pyfloat)
    (prediction : gmap string Q) :
  let feature_vector := Explainer._prepare_feature_vector features in
  py_sum (dict_values
            (Explainer._calculate_approximate_shap feature_vector prediction))
  == (Explainer.risk_score_of prediction - Explainer.expected_value)
     * (raw_contribution_sum feature_vector / 1.1).
Proof.
  cbv zeta.
  rewrite (scaled_entries_sum _ _ _
             (approximate_shap_entries features prediction)).
  rewrite (abs_weight_sum_prepared features). field.
Qed.

(** ** Dicts as association lists *)

Lemma dict_get_set_eq {A} (d : list (string * A)) (k : string) (v : A) :
  dict_get (dict_set d k v) k = Some v.
Proof.
  induction d as [| [k' v'] d IH]; simpl.
  - rewrite String.eqb_refl. reflexivity.
  - destruct (String.eqb k' k) eqn:E; simpl; rewrite E; auto.
Qed.

Lemma dict_get_set_ne {A} (d : list (string * A)) (k k' : string) (v : A) :
  k <> k' -> dict_get (dict_set d k v) k' = dict_get d k'.
Proof.
  intros Hne. induction d as [| [k0 v0] d IH]; simpl.
  - destruct (String.eqb k k') eqn:E; [| reflexivity].
    apply String.eqb_eq in E. contradiction.
  - destruct (String.eqb k0 k) eqn:E; simpl.
    + apply String.eqb_eq in E. subst k0.
      destruct (String.eqb k k') eqn:E'; [| reflexivity].
      apply String.eqb_eq in E'. contradiction.
    + rewrite IH. reflexivity.
Qed.

Lemma dict_set_keys_fresh {A} (d : list (string * A)) (k : string) (v : A) :
  ~ In k (map fst d) -> map fst (dict_set d k v) = (map fst d ++ [k])%list.
Proof.
  induction d as [| [k' v'] d IH]; simpl; intros Hk; [reflexivity |].
  destruct (String.eqb k' k) eqn:E.
  - apply String.eqb_eq in E. tauto.
  - simpl. f_equal. apply IH. tauto.
Qed.

Lemma dict_set_values {A} (P : A -> Prop) (d : list (string * A))
    (k : string) (v : A) :
  Forall (fun kv => P (snd kv)) d -> P v ->
  Forall (fun kv => P (snd kv)) (dict_set d k v).
Proof.
  intros Hd Hv. induction Hd as [| [k' v'] d Hkv Hd IH]; simpl.
  - constructor; [exact Hv | constructor].
  - destruct (String.eqb k' k); constructor; auto.
Qed.

Lemma dict_get_unique {A} (d : list (string * A)) (k : string) (v : A) :
  List.NoDup (map fst d) -> In (k, v) d -> dict_get d k = Some v.
Proof.
  induction d as [| [k' v'] d IH]; simpl; intros Hnd Hin; [destruct Hin |].
  apply List.NoDup_cons_iff in Hnd. destruct Hnd as [Hk' Hnd].
  destruct Hin as [[= -> ->] | Hin].
  - rewrite String.eqb_refl. reflexivity.
  - destruct (String.eqb k' k) eqn:E; [| auto].
    apply String.eqb_eq in E. subst k'.
    exfalso. apply Hk'. apply (in_map fst) in Hin. exact Hin.
Qed.

(** ** The surviving predictions *)

Lemma base_score_loop_typed (feature_vector : list Q) (ty : string)
    (acc : option Q) (i : nat) (items : list (string * Q)) (base : Q) :
  exists s,
    Scorer.base_score_loop feature_vector
      {| Scorer.mi_type := Some ty; Scorer.mi_accuracy := acc |} i items base
    = inr s.
Proof.
  revert i base. induction items as [| [name w] rest IH]; intros i base; simpl.
  - eexists. reflexivity.
  - destruct (nth_error feature_vector i); apply IH.
Qed.

Lemma base_score_raises (feature_vector : list Q) (mi : Scorer.model_info) :
  feature_vector <> [] ->
  match Scorer.mi_type mi with
  | Some _ => exists s, Scorer.base_score feature_vector mi = inr s
  | None => Scorer.base_score feature_vector mi = inl (KeyError "type")
  end.
Proof.
  intros Hne. destruct mi as [[ty |] acc]; simpl.
  - apply base_score_loop_typed.
  - destruct feature_vector as [| v rest]; [congruence | reflexivity].
Qed.

Lemma prediction_in_unit (feature_vector : list Q) (mi : Scorer.model_info)
    (g : rng) (p : Q) :
  fst (Scorer._simulate_model_prediction feature_vector mi g) = inr p ->
  0 <= p <= 1.
Proof.
  unfold Scorer._simulate_model_prediction.
  destruct (Scorer.base_score feature_vector mi) as [e | base]; simpl;
    [discriminate |].
  intros [= <-]. pose proof (py_clamp_bounds 0.0 1.0 (base + g 0%nat)). lra.
Qed.

Lemma ensemble_loop_in_unit (feature_vector : list Q)
    (models : list (string * Scorer.model_info))
    (predictions : list (string * Q)) (g : rng) :
  in_unit predictions ->
  in_unit (fst (Scorer.ensemble_loop feature_vector models predictions g)).
Proof.
  revert predictions g.
  induction models as [| [name mi] rest IH]; intros predictions g Hacc;
    [exact Hacc |].
  simpl.
  pose proof (prediction_in_unit feature_vector mi g) as Hp.
  destruct (Scorer._simulate_model_prediction feature_vector mi g)
    as [[e | p] g']; apply IH; [exact Hacc |].
  apply (dict_set_values (fun v => 0 <= v <= 1)); [exact Hacc |].
  apply Hp. reflexivity.
Qed.

(** X1.  Every surviving model prediction is a number of [0, 1], whatever the
    vector, the model table and the noise. *)
Theorem predictions_in_unit (models : list (string * Scorer.model_info))
    (feature_vector : list Q) (g : rng) :
  in_unit (fst (Scorer._get_ensemble_predictions models feature_vector g)).
Proof.
  unfold Scorer._get_ensemble_predictions.
  apply ensemble_loop_in_unit. constructor.
Qed.

Lemma typed_names_cons (m : string * Scorer.model_info)
    (models : list (string * Scorer.model_info)) :
  typed_names (m :: models)
  = if has_type m then fst m :: typed_names models else typed_names models.
Proof. unfold typed_names. simpl. destruct (has_type m); reflexivity. Qed.

Lemma typed_names_subset (models : list (string * Scorer.model_info))
    (name : string) :
  In name (typed_names models) -> In name (map fst models).
Proof.
  unfold typed_names. rewrite in_map_iff. intros ([n mi] & <- & Hin).
  apply filter_In in Hin. destruct Hin as [Hin _].
  apply (in_map fst) in Hin. exact Hin.
Qed.

Lemma ensemble_loop_keys (feature_vector : list Q)
    (models : list (string * Scorer.model_info))
    (predictions : list (string * Q)) (g : rng) :
  feature_vector <> [] ->
  List.NoDup (map fst models) ->
  (forall name, In name (map fst models) ->
     ~ In name (map fst predictions)) ->
  map fst (fst (Scorer.ensemble_loop feature_vector models predictions g))
  = (map fst predictions ++ typed_names models)%list.
Proof.
  intros Hvec. revert predictions g.
  induction models as [| [name mi] rest IH]; intros predictions g Hnd Hfresh.
  - simpl. rewrite app_nil_r. reflexivity.
  - simpl in Hnd. apply List.NoDup_cons_iff in Hnd. destruct Hnd as [Hname Hnd].
    simpl. rewrite typed_names_cons. unfold has_type. simpl.
    unfold Scorer._simulate_model_prediction.
    pose proof (base_score_raises feature_vector mi Hvec) as Hb.
    destruct (Scorer.mi_type mi) as [ty |].
    + destruct Hb as [s ->]. simpl. rewrite IH; [| exact Hnd |].
      * rewrite dict_set_keys_fresh by (apply Hfresh; left; reflexivity).
        rewrite <- app_assoc. reflexivity.
      * intros n Hn. rewrite dict_set_keys_fresh
          by (apply Hfresh; left; reflexivity).
        rewrite in_app_iff. intros [Hin | [<- | []]].
        -- apply (Hfresh n); [right; exact Hn | exact Hin].
        -- apply Hname. exact Hn.
    + rewrite Hb. simpl. apply IH; [exact Hnd |].
      intros n Hn. apply Hfresh. right. exact Hn.
Qed.

(** X2.  For a model table with distinct names and a vector that is not empty,
    the surviving predictions are keyed by the names of the entries that
    have a type, in table order: an entry without one is skipped and every
    other entry predicts. *)
Theorem predictions_of_typed_models
    (models : list (string * Scorer.model_info)) (feature_vector : list Q)
    (g : rng) :
  feature_vector <> [] ->
  List.NoDup (map fst models) ->
  map fst (fst (Scorer._get_ensemble_predictions models feature_vector g))
  = typed_names models.
Proof.
  intros Hvec Hnd. unfold Scorer._get_ensemble_predictions.
  rewrite (ensemble_loop_keys feature_vector models [] g Hvec Hnd).
  - reflexivity.
  - intros name _ [].
Qed.

Lemma predictions_of_typed_models_witness :
  Scorer._prepare_feature_vector good_health <> []
  /\ List.NoDup (map fst (no_type ++ Scorer._load_models)%list)
  /\ map fst (fst (Scorer._get_ensemble_predictions
                     (no_type ++ Scorer._load_models)%list
                     (Scorer._prepare_feature_vector good_health) ramp))
     = typed_names (no_type ++ Scorer._load_models)%list.
Proof.
  assert (H1 : Scorer._prepare_feature_vector good_health <> [])
    by discriminate.
  assert (H2 : List.NoDup (map fst (no_type ++ Scorer._load_models)%list)).
  { simpl. repeat (constructor; [simpl; intuition discriminate |]).
    constructor. }
  split; [exact H1 |]. split; [exact H2 |].
  exact (predictions_of_typed_models (no_type ++ Scorer._load_models)%list
           (Scorer._prepare_feature_vector good_health) ramp H1 H2).
Defined.

(** ** When the ensemble score raises *)

Lemma weighted_loop_outcome (models : list (string * Scorer.model_info))
    (predictions : list (string * Q)) (ws tw : Q) :
  (forall kv, In kv predictions ->
     exists mi, dict_get models (fst kv) = Some mi) ->
  (resolvable models predictions
   /\ exists r, Scorer.weighted_loop models predictions ws tw = inr r)
  \/ (Scorer.weighted_loop models predictions ws tw
      = inl (KeyError "accuracy")
      /\ exists kv mi,
           In kv predictions
           /\ dict_get models (fst kv) = Some mi
           /\ Scorer.mi_accuracy mi = None).
Proof.
  revert ws tw.
  induction predictions as [| [name p] rest IH]; intros ws tw Hfound.
  - left. split; [intros kv [] | eexists; reflexivity].
  - destruct (Hfound (name, p) (or_introl eq_refl)) as [mi Hmi].
    simpl in Hmi. simpl. rewrite Hmi.
    destruct (Scorer.mi_accuracy mi) as [a |] eqn:Ha.
    + destruct (IH (ws + p * a) (tw + a)) as [[Hres Hr] | [Hraise Hex]].
      { intros kv Hin. apply Hfound. right. exact Hin. }
      * left. split; [| exact Hr].
        intros kv [<- | Hin]; [exists mi, a; auto | apply Hres; exact Hin].
      * right. split; [exact Hraise |].
        destruct Hex as (kv & mi' & Hin & H1 & H2).
        exists kv, mi'. auto.
    + right. split; [reflexivity |].
      exists (name, p), mi. auto.
Qed.

Lemma typed_names_entry (models : list (string * Scorer.model_info))
    (name : string) :
  In name (typed_names models) ->
  exists mi, In (name, mi) models /\ has_type (name, mi) = true.
Proof.
  unfold typed_names. rewrite in_map_iff. intros ([n mi] & Hn & Hin).
  simpl in Hn. subst n. apply filter_In in Hin. exists mi. exact Hin.
Qed.

Lemma entry_typed_name (models : list (string * Scorer.model_info))
    (m : string * Scorer.model_info) :
  In m models -> has_type m = true -> In (fst m) (typed_names models).
Proof.
  intros Hin Hty. unfold typed_names. apply in_map. apply filter_In. auto.
Qed.

Lemma scorer_vector_nonempty (features : gmap string pyfloat) :
  Scorer._prepare_feature_vector features <> [].
Proof. discriminate. Qed.

Lemma score_features_predictions (np_sqrt : Q -> Q)
    (models : list (string * Scorer.model_info))
    (features : gmap string pyfloat) (opts : options) (g : rng) :
  let r := fst (Scorer.score_features np_sqrt models features opts g) in
  Scorer.modelType r = "ensemble" ->
  Scorer.modelPredictions r
  = map (fun kv => (fst kv, Fin (snd kv)))
      (fst (Scorer._get_ensemble_predictions models
              (Scorer._prepare_feature_vector features) g)).
Proof.
  cbv zeta. unfold Scorer.score_features.
  destruct (Scorer._get_ensemble_predictions models
              (Scorer._prepare_feature_vector features) g) as [preds g'].
  simpl.
  destruct (Scorer._calculate_ensemble_score models preds); simpl;
    [discriminate | reflexivity].
Qed.

Lemma scored_predictions_keys (models : list (string * Scorer.model_info))
    (features : gmap string pyfloat) (g : rng) :
  List.NoDup (map fst models) ->
  map fst (fst (Scorer._get_ensemble_predictions models
                  (Scorer._prepare_feature_vector features) g))
  = typed_names models.
Proof.
  intros Hnd. unfold Scorer._get_ensemble_predictions.
  rewrite (ensemble_loop_keys (Scorer._prepare_feature_vector features) models
             [] g (scorer_vector_nonempty features) Hnd).
  - reflexivity.
  - intros name _ [].
Qed.

(** X3.  For a model table with distinct names, [score_features] ends in the
    fallback exactly when some entry has a type but no accuracy; the error
    text of the fallback result is then the text of the KeyError. *)
Theorem fallback_iff_accuracy_missing (np_sqrt : Q -> Q)
    (models : list (string * Scorer.model_info))
    (features : gmap string pyfloat) (opts : options) (g : rng) :
  let r := fst (Scorer.score_features np_sqrt models features opts g) in
  List.NoDup (map fst models) ->
  (Scorer.modelType r = "fallback" <-> Exists lacks_accuracy models)
  /\ (Scorer.modelType r = "fallback" ->
      Scorer.error r = Some "'accuracy'")
  /\ (Scorer.modelType r = "ensemble" \/ Scorer.modelType r = "fallback").
Proof.
  intros r Hnd.
  pose proof (score_features_paths np_sqrt models features opts g) as P.
  cbv zeta in P. fold r in P.
  pose proof (scored_predictions_keys models features g Hnd) as Hkeys.
  set (preds := fst (Scorer._get_ensemble_predictions models
                       (Scorer._prepare_feature_vector features) g)) in *.
  assert (Hentry : forall kv, In kv preds ->
            exists mi, In (fst kv, mi) models
                       /\ has_type (fst kv, mi) = true
                       /\ dict_get models (fst kv) = Some mi).
  { intros kv Hin. apply (in_map fst) in Hin. rewrite Hkeys in Hin.
    destruct (typed_names_entry models (fst kv) Hin) as (mi & Hm & Hty).
    exists mi. split; [exact Hm |]. split; [exact Hty |].
    apply dict_get_unique; assumption. }
  assert (Hfound : forall kv, In kv preds ->
            exists mi, dict_get models (fst kv) = Some mi).
  { intros kv Hin. destruct (Hentry kv Hin) as (mi & _ & _ & H). eauto. }
  destruct (weighted_loop_outcome models preds 0.0 0.0 Hfound)
    as [[Hres [[ws tw] Hr]] | [Hraise (kv & mi & Hin & Hmi & Hacc)]].
  - assert (Hok : exists s,
              Scorer._calculate_ensemble_score models preds = inr s).
    { unfold Scorer._calculate_ensemble_score.
      destruct preds as [| kv rest]; [eexists; reflexivity |].
      rewrite Hr. destruct (Qeq_bool tw 0); eexists; reflexivity. }
    destruct Hok as [s Hs]. rewrite Hs in P.
    destruct P as (_ & _ & Hty & _).
    assert (Hnone : ~ Exists lacks_accuracy models).
    { rewrite List.Exists_exists. intros ([name mi] & Hin & Hty' & Hacc).
      simpl in Hacc.
      pose proof (entry_typed_name models (name, mi) Hin Hty') as Hn.
      simpl in Hn. rewrite <- Hkeys in Hn. apply in_map_iff in Hn.
      destruct Hn as (kv & Hk & Hkv).
      destruct (Hres kv Hkv) as (mi' & a & Hmi' & Ha).
      rewrite Hk in Hmi'.
      rewrite (dict_get_unique models name mi Hnd Hin) in Hmi'.
      injection Hmi' as <-. congruence. }
    rewrite Hty. split; [| split; [discriminate | left; reflexivity]].
    split; [discriminate | intros H; contradiction].
  - assert (Hs : Scorer._calculate_ensemble_score models preds
                 = inl (KeyError "accuracy")).
    { unfold Scorer._calculate_ensemble_score.
      destruct preds as [| kv' rest]; [destruct Hin |].
      rewrite Hraise. reflexivity. }
    rewrite Hs in P. rewrite P.
    split; [| split; [reflexivity | right; reflexivity]].
    split; [intros _ | reflexivity].
    destruct (Hentry kv Hin) as (mi' & Hm & Hty & Hget).
    rewrite Hget in Hmi. injection Hmi as ->.
    apply List.Exists_exists. exists (fst kv, mi). split; [exact Hm |].
    split; [exact Hty | exact Hacc].
Qed.

Lemma fallback_iff_accuracy_missing_witness :
  List.NoDup (map fst (no_accuracy ++ Scorer._load_models)%list)
  /\ (Scorer.modelType
        (fst (Scorer.score_features id_sqrt
                (no_accuracy ++ Scorer._load_models)%list good_health seeded
                ramp)) = "fallback"
      <-> Exists lacks_accuracy (no_accuracy ++ Scorer._load_models)%list)
  /\ (Scorer.modelType
        (fst (Scorer.score_features id_sqrt
                (no_accuracy ++ Scorer._load_models)%list good_health seeded
                ramp)) = "fallback" ->
      Scorer.error
        (fst (Scorer.score_features id_sqrt
                (no_accuracy ++ Scorer._load_models)%list good_health seeded
                ramp)) = Some "'accuracy'")
  /\ (Scorer.modelType
        (fst (Scorer.score_features id_sqrt
                (no_accuracy ++ Scorer._load_models)%list good_health seeded
                ramp)) = "ensemble"
      \/ Scorer.modelType
           (fst (Scorer.score_features id_sqrt
                   (no_accuracy ++ Scorer._load_models)%list good_health seeded
                   ramp)) = "fallback").
Proof.
  assert (H : List.NoDup (map fst (no_accuracy ++ Scorer._load_models)%list)).
  { simpl. repeat (constructor; [simpl; intuition discriminate |]).
    constructor. }
  split; [exact H |].
  exact (fallback_iff_accuracy_missing id_sqrt
           (no_accuracy ++ Scorer._load_models)%list good_health seeded ramp H).
Defined.

(** ** The ensemble score of resolvable predictions *)

Lemma weighted_score_between (models : list (string * Scorer.model_info))
    (predictions : list (string * Q)) :
  predictions <> [] ->
  resolvable models predictions ->
  (forall kv, In kv predictions -> 0 < accuracy_of models (fst kv)) ->
  in_unit predictions ->
  exists s,
    Scorer._calculate_ensemble_score models predictions = inr s
    /\ s == weighted_mean models predictions
    /\ min_prediction predictions <= s <= max_prediction predictions.
Proof.
  intros Hne Hres Hacc Hunit.
  unfold in_unit in Hunit. rewrite List.Forall_forall in Hunit.
  destruct (weighted_loop_sums models predictions 0.0 0.0 Hres)
    as (ws & tw & Hloop & Hws & Htw).
  pose proof (weights_positive models predictions Hne Hacc) as Hpos.
  destruct (weighted_between models predictions 0 1) as (H0 & H1 & _).
  { intros kv Hin. split; [apply Hunit | apply Hacc]; exact Hin. }
  destruct (weighted_between models predictions
              (min_prediction predictions) (max_prediction predictions))
    as (Hlo & Hhi & _).
  { intros kv Hin.
    split; [apply prediction_between_extremes | apply Hacc]; exact Hin. }
  set (W := weighted_total models predictions) in *.
  set (A := weight_total models predictions) in *.
  assert (Hws' : ws == W) by (rewrite Hws; ring).
  assert (Htw' : tw == A) by (rewrite Htw; ring).
  assert (Hbetween : forall lo hi, lo * A <= W -> W <= hi * A ->
                       lo <= ws / tw <= hi).
  { intros lo hi Hl Hh. rewrite Hws', Htw'. split.
    - apply Qle_shift_div_l; assumption.
    - apply Qle_shift_div_r; assumption. }
  assert (Hclamp : py_max 0.0 (py_min 1.0 (ws / tw)) == ws / tw).
  { apply py_clamp_id. pose proof (Hbetween 0 1 H0 H1). lra. }
  exists (py_max 0.0 (py_min 1.0 (ws / tw))). split.
  - unfold Scorer._calculate_ensemble_score.
    destruct predictions as [| kv rest]; [congruence |].
    rewrite Hloop. destruct (Qeq_bool tw 0) eqn:E; [| reflexivity].
    apply Qeq_bool_iff in E. lra.
  - rewrite Hclamp. split; [| apply Hbetween; assumption].
    unfold weighted_mean. fold W A. rewrite Hws', Htw'. reflexivity.
Qed.

(** X4.  With the model table that [_load_models] builds, [score_features] never
    ends in the fallback: whatever the raw mapping and the noise, all four
    models predict, and the risk score is the accuracy-weighted mean of the
    four predictions, between the smallest and the largest of them. *)
Theorem shipped_models_always_score (np_sqrt : Q -> Q)
    (features : gmap string pyfloat) (opts : options) (g : rng) :
  let models := Scorer._load_models in
  let predictions :=
    fst (Scorer._get_ensemble_predictions models
           (Scorer._prepare_feature_vector features) g) in
  let r := fst (Scorer.score_features np_sqrt models features opts g) in
  Scorer.modelType r = "ensemble"
  /\ Scorer.error r = None
  /\ map fst predictions
     = ["random_forest"; "gradient_boosting"; "neural_network"; "svm"]
  /\ Scorer.modelPredictions r
     = map (fun kv => (fst kv, Fin (snd kv))) predictions
  /\ exists s,
       Scorer.riskScore r = Fin s
       /\ s == weighted_mean models predictions
       /\ min_prediction predictions <= s <= max_prediction predictions.
Proof.
  intros models predictions r.
  assert (Hnd : List.NoDup (map fst models)).
  { simpl. repeat (constructor; [simpl; intuition discriminate |]).
    constructor. }
  pose proof (scored_predictions_keys models features g Hnd) as Hkeys.
  fold predictions in Hkeys.
  change (typed_names models)
    with ["random_forest"; "gradient_boosting"; "neural_network"; "svm"]
    in Hkeys.
  assert (Hunit : in_unit predictions).
  { unfold predictions, Scorer._get_ensemble_predictions.
    apply ensemble_loop_in_unit. constructor. }
  assert (Hcase : forall kv, In kv predictions ->
            fst kv = "random_forest" \/ fst kv = "gradient_boosting"
            \/ fst kv = "neural_network" \/ fst kv = "svm").
  { intros kv Hin. apply (in_map fst) in Hin. rewrite Hkeys in Hin.
    simpl in Hin. intuition. }
  assert (Hres : resolvable models predictions).
  { intros kv Hin.
    destruct (Hcase kv Hin) as [-> | [-> | [-> | ->]]];
      eexists; eexists; split; reflexivity. }
  assert (Hacc : forall kv, In kv predictions ->
                   0 < accuracy_of models (fst kv)).
  { intros kv Hin.
    destruct (Hcase kv Hin) as [-> | [-> | [-> | ->]]]; reflexivity. }
  assert (Hne : predictions <> []).
  { intros E. rewrite E in Hkeys. discriminate Hkeys. }
  destruct (weighted_score_between models predictions Hne Hres Hacc Hunit)
    as (s & Hs & Hmean & Hbetween).
  pose proof (score_features_paths np_sqrt models features opts g) as P.
  cbv zeta in P. fold predictions r in P. rewrite Hs in P.
  destruct P as (Hrisk & _ & Hty & Herr).
  split; [exact Hty |]. split; [exact Herr |]. split; [exact Hkeys |].
  split; [apply score_features_predictions; exact Hty |].
  exists s. auto.
Qed.

(** X5.  When every predicted model has accuracy 0, the weights add up to
    0 and [_calculate_ensemble_score] returns 0.5 instead of dividing. *)
Theorem zero_total_weight_is_neutral
    (models : list (string * Scorer.model_info))
    (predictions : list (string * Q)) :
  resolvable models predictions ->
  (forall kv, In kv predictions -> accuracy_of models (fst kv) == 0) ->
  Scorer._calculate_ensemble_score models predictions = inr 0.5.
Proof.
  intros Hres Hzero.
  destruct (weighted_loop_sums models predictions 0.0 0.0 Hres)
    as (ws & tw & Hloop & _ & Htw).
  assert (Hsum : weight_total models predictions == 0).
  { unfold weight_total. clear Hres Hloop Htw.
    induction predictions as [| kv rest IH]; [apply py_sum_nil |].
    cbn [map]. rewrite py_sum_cons, (Hzero kv (or_introl eq_refl)), IH.
    - ring.
    - intros kv' Hin. apply Hzero. right. exact Hin. }
  unfold Scorer._calculate_ensemble_score.
  destruct predictions as [| kv rest]; [reflexivity |].
  rewrite Hloop.
  destruct (Qeq_bool tw 0) eqn:E; [reflexivity |].
  exfalso. apply Qeq_bool_neq in E. apply E. rewrite Htw, Hsum. reflexivity.
Qed.

Lemma zero_total_weight_is_neutral_witness :
  resolvable zero_accuracy one_prediction
  /\ (forall kv, In kv one_prediction ->
        accuracy_of zero_accuracy (fst kv) == 0)
  /\ Scorer._calculate_ensemble_score zero_accuracy one_prediction = inr 0.5.
Proof.
  assert (H1 : resolvable zero_accuracy one_prediction).
  { intros kv [<- | []]; eexists; eexists; split; reflexivity. }
  assert (H2 : forall kv, In kv one_prediction ->
                 accuracy_of zero_accuracy (fst kv) == 0).
  { intros kv [<- | []]; vm_compute; reflexivity. }
  split; [exact H1 |]. split; [exact H2 |].
  exact (zero_total_weight_is_neutral zero_accuracy one_prediction H1 H2).
Defined.

(** ** Confidence *)

(** X6.  Whenever a prediction survives, the confidence computed for a
    normalised vector is at least 0.7: the agreement term is at least 0.5
    and the completeness bonus is always 0.2. *)
Theorem confidence_at_least_07 (np_sqrt : Q -> Q)
    (predictions : list (string * Q)) (features : gmap string pyfloat) :
  predictions <> [] ->
  0.7 <= Scorer._calculate_prediction_confidence np_sqrt predictions
           (Scorer._prepare_feature_vector features) <= 0.95.
Proof.
  intros Hne. split; [| apply confidence_bounds].
  unfold Scorer._calculate_prediction_confidence.
  destruct predictions as [| kv rest]; [congruence |].
  pose proof (completeness_bonus_constant features) as Hb.
  set (vec := Scorer._prepare_feature_vector features) in *.
  set (pv := dict_values (kv :: rest)).
  pose proof (Qabs_nonneg (np_mean pv - 0.5)) as Habs.
  assert (Hbase : 0.5 <= (if Nat.eqb (length pv) 1 then 0.7
                          else py_max 0.5 (1.0 - Scorer.np_std np_sqrt pv * 2))).
  { destruct (Nat.eqb (length pv) 1); [lra |].
    unfold py_max. case_lt; lra. }
  set (base := if Nat.eqb (length pv) 1 then 0.7
               else py_max 0.5 (1.0 - Scorer.np_std np_sqrt pv * 2)) in *.
  unfold py_min. case_lt; unfold py_max; case_lt; lra.
Qed.

Lemma confidence_at_least_07_witness :
  three_predictions <> []
  /\ 0.7 <= Scorer._calculate_prediction_confidence id_sqrt three_predictions
              (Scorer._prepare_feature_vector no_features) <= 0.95.
Proof.
  assert (H : three_predictions <> []) by discriminate.
  split; [exact H |].
  exact (confidence_at_least_07 id_sqrt three_predictions no_features H).
Defined.

(** X7.  With a single surviving prediction [p] of [0, 1] the confidence is
    0.9 + |p - 0.5| * 0.1, whatever the square root. *)
Theorem single_model_confidence (np_sqrt : Q -> Q) (name : string) (p : Q)
    (features : gmap string pyfloat) :
  0 <= p <= 1 ->
  Scorer._calculate_prediction_confidence np_sqrt [(name, p)]
    (Scorer._prepare_feature_vector features)
  == 0.9 + Qabs (p - 0.5) * 0.1.
Proof.
  intros Hp. unfold Scorer._calculate_prediction_confidence.
  pose proof (completeness_bonus_constant features) as Hb.
  set (vec := Scorer._prepare_feature_vector features) in *.
  simpl dict_values. simpl length. simpl Nat.eqb. cbv iota.
  assert (Hmean : np_mean [p] == p).
  { unfold np_mean, py_sum. simpl. field. }
  assert (Habs : Qabs (np_mean [p] - 0.5) == Qabs (p - 0.5))
    by (rewrite Hmean; reflexivity).
  assert (Hrange : 0 <= Qabs (p - 0.5) <= 0.5).
  { split; [apply Qabs_nonneg |]. apply Qabs_Qle_condition. lra. }
  rewrite py_clamp_id; [rewrite Hb, Habs; ring |].
  rewrite Hb, Habs. lra.
Qed.

Lemma single_model_confidence_witness :
  0 <= 0.7 <= 1
  /\ Scorer._calculate_prediction_confidence id_sqrt [("rule_based", 0.7)]
       (Scorer._prepare_feature_vector no_features)
     == 0.9 + Qabs (0.7 - 0.5) * 0.1.
Proof.
  assert (H : 0 <= 0.7 <= 1) by lra.
  split; [exact H |].
  exact (single_model_confidence id_sqrt "rule_based" 0.7 no_features H).
Defined.

(** ** The generator after scoring *)

Lemma ensemble_loop_state (feature_vector : list Q)
    (models : list (string * Scorer.model_info))
    (predictions : list (string * Q)) (g : rng) (n : nat) :
  feature_vector <> [] ->
  snd (Scorer.ensemble_loop feature_vector models predictions g) n
  = g (n + length (typed_names models))%nat.
Proof.
  intros Hvec. revert predictions g n.
  induction models as [| [name mi] rest IH]; intros predictions g n.
  - simpl. f_equal. unfold typed_names. simpl. lia.
  - simpl. rewrite typed_names_cons. unfold has_type. simpl.
    unfold Scorer._simulate_model_prediction.
    pose proof (base_score_raises feature_vector mi Hvec) as Hb.
    destruct (Scorer.mi_type mi) as [ty |].
    + destruct Hb as [s ->]. simpl. rewrite IH. f_equal. lia.
    + rewrite Hb. simpl. apply IH.
Qed.

(** X8.  A scoring call advances the ambient generator by exactly one draw for
    every model entry that has a type: the draw [n] after the call is the
    draw [n + k] before it. *)
Theorem scoring_consumes_one_draw_per_model (np_sqrt : Q -> Q)
    (models : list (string * Scorer.model_info))
    (features : gmap string pyfloat) (opts : options) (g : rng) (n : nat) :
  snd (Scorer.score_features np_sqrt models features opts g) n
  = g (n + length (typed_names models))%nat.
Proof.
  rewrite <- (ensemble_loop_state (Scorer._prepare_feature_vector features)
                models [] g n (scorer_vector_nonempty features)).
  unfold Scorer.score_features, Scorer._get_ensemble_predictions.
  destruct (Scorer.ensemble_loop (Scorer._prepare_feature_vector features)
              models [] g) as [preds g'].
  simpl. destruct (Scorer._calculate_ensemble_score models preds); reflexivity.
Qed.

(** ** Feature importance *)

Lemma base_importance_positive (feature_name : string) :
  0 < Scorer.base_importance_of feature_name.
Proof.
  unfold Scorer.base_importance_of.
  destruct (dict_get Scorer.feature_importance feature_name) as [w |] eqn:E;
    [| reflexivity].
  apply dict_get_In in E. unfold Scorer.feature_importance in E. simpl in E.
  repeat (destruct E as [[= _ <-] | E]; [reflexivity |]). destruct E.
Qed.

Lemma importance_loop_positive (feature_vector : list Q) (i : nat)
    (names : list string) (importance : list (string * Q)) :
  Forall (fun kv => 0 < snd kv) importance ->
  Forall (fun kv => 0 < snd kv)
    (Scorer.importance_loop feature_vector i names importance).
Proof.
  revert i importance.
  induction names as [| name rest IH]; intros i importance Hacc;
    [exact Hacc |].
  cbn [Scorer.importance_loop].
  destruct (nth_error feature_vector i) as [v |]; apply IH; [| exact Hacc].
  apply (dict_set_values (fun v => 0 < v)); [exact Hacc |].
  pose proof (base_importance_positive name).
  pose proof (Qabs_nonneg (v - 0.5)). lra.
Qed.

Lemma py_sum_dominates (xs : list Q) :
  Forall (fun x => 0 < x) xs ->
  0 <= py_sum xs /\ Forall (fun x => x <= py_sum xs) xs.
Proof.
  intros Hpos. induction Hpos as [| x xs Hx Hpos [Hs Hle]].
  - split; [cbv; discriminate | constructor].
  - split; [rewrite py_sum_cons; lra |].
    rewrite List.Forall_forall in Hle.
    constructor; [rewrite py_sum_cons; lra |].
    rewrite List.Forall_forall. intros z Hz.
    pose proof (Hle z Hz). rewrite py_sum_cons. lra.
Qed.

Lemma py_sum_positive (xs : list Q) :
  xs <> [] -> Forall (fun x => 0 < x) xs ->
  0 < py_sum xs /\ Forall (fun x => x <= py_sum xs) xs.
Proof.
  intros Hne Hpos. split; [| apply py_sum_dominates; exact Hpos].
  destruct xs as [| x xs]; [congruence |].
  inversion Hpos as [| ? ? Hx Hrest]; subst.
  destruct (py_sum_dominates xs Hrest) as [Hs _].
  rewrite py_sum_cons. lra.
Qed.

Lemma py_sum_divided (xs : list Q) (t : Q) :
  py_sum (map (fun x => x / t) xs) == py_sum xs / t.
Proof. apply (py_sum_scaled xs (/ t)). Qed.

Lemma normalised_importance (importance : list (string * Q)) :
  importance <> [] ->
  Forall (fun kv => 0 < snd kv) importance ->
  let total := py_sum (dict_values importance) in
  let r := map (fun kv => (fst kv, snd kv / total)) importance in
  0 < total
  /\ Forall (fun kv => 0 < snd kv <= 1) r
  /\ py_sum (dict_values r) == 1.
Proof.
  intros Hne Hpos total r.
  assert (Hvals : Forall (fun x => 0 < x) (dict_values importance)).
  { unfold dict_values. rewrite List.Forall_forall in Hpos |- *.
    intros x Hx. apply in_map_iff in Hx. destruct Hx as (kv & <- & Hkv).
    apply Hpos. exact Hkv. }
  assert (Hne' : dict_values importance <> []).
  { unfold dict_values. destruct importance; [congruence | discriminate]. }
  destruct (py_sum_positive _ Hne' Hvals) as [Htot Hle]. fold total in Htot, Hle.
  split; [exact Htot |]. split.
  - unfold r. rewrite List.Forall_forall in Hpos, Hle |- *.
    intros kv Hkv. apply in_map_iff in Hkv. destruct Hkv as (kv0 & <- & Hin).
    simpl. pose proof (Hpos kv0 Hin) as H0.
    assert (H1 : snd kv0 <= total).
    { apply Hle. unfold dict_values. apply in_map. exact Hin. }
    split.
    + apply Qlt_shift_div_l; lra.
    + apply Qle_shift_div_r; lra.
  - unfold r, dict_values. rewrite map_map. simpl.
    rewrite <- (map_map snd (fun x => x / total)).
    rewrite py_sum_divided. fold (dict_values importance). fold total.
    field. lra.
Qed.

(** X9.  The feature importance returned with a score names the twelve
    enumerated features in order, those without a weight of their own
    included; every share is positive and at most 1, and the shares sum
    to 1. *)
Theorem feature_importance_sums_to_one (features : gmap string pyfloat) :
  let r :=
    Scorer._calculate_feature_importance
      (Scorer._prepare_feature_vector features) in
  map fst r = Scorer.feature_names
  /\ Forall (fun kv => 0 < snd kv <= 1) r
  /\ py_sum (dict_values r) == 1.
Proof.
  cbv zeta. unfold Scorer._calculate_feature_importance.
  set (importance := Scorer.importance_loop
                       (Scorer._prepare_feature_vector features) 0
                       Scorer.feature_names []).
  assert (Hkeys : map fst importance = Scorer.feature_names) by reflexivity.
  assert (Hne : importance <> []).
  { intros E. rewrite E in Hkeys. discriminate Hkeys. }
  assert (Hpos : Forall (fun kv => 0 < snd kv) importance)
    by (apply importance_loop_positive; constructor).
  destruct (normalised_importance importance Hne Hpos) as (Htot & Hr & Hsum).
  apply Qlt_bool_true in Htot. rewrite Htot.
  split; [| split; [exact Hr | exact Hsum]].
  rewrite map_map. simpl. exact Hkeys.
Qed.

(** ** The fallback score on values that are not finite *)

(** X10.  The fallback reads the raw mapping: a cognitiveHealthScore that is NaN
    or infinite becomes the risk score when hesitationRatio is absent. *)
Theorem fallback_passes_non_finite_score (features : gmap string pyfloat)
    (error_msg : string) (x : pyfloat) :
  features !! "cognitiveHealthScore" = Some x ->
  non_finite x ->
  features !! "hesitationRatio" = None ->
  Scorer.riskScore (Scorer._fallback_scoring features error_msg) = x.
Proof.
  intros Hc Hx Hh.
  unfold Scorer._fallback_scoring, Scorer.fallback_primary,
    Scorer.fallback_hesitation.
  rewrite Hc, Hh. cbn [Scorer.riskScore].
  destruct x as [q | | |]; [destruct Hx | reflexivity | reflexivity
                           | reflexivity].
Qed.

Lemma fallback_passes_non_finite_score_witness :
  nan_health !! "cognitiveHealthScore" = Some NaN
  /\ non_finite NaN
  /\ nan_health !! "hesitationRatio" = None
  /\ Scorer.riskScore (Scorer._fallback_scoring nan_health "failure") = NaN.
Proof.
  assert (H1 : nan_health !! "cognitiveHealthScore" = Some NaN)
    by (vm_compute; reflexivity).
  assert (H2 : non_finite NaN) by exact I.
  assert (H3 : nan_health !! "hesitationRatio" = None)
    by (vm_compute; reflexivity).
  split; [exact H1 |]. split; [exact H2 |]. split; [exact H3 |].
  exact (fallback_passes_non_finite_score nan_health "failure" NaN H1 H2 H3).
Defined.

(** X11.  With hesitationRatio present, a NaN cognitiveHealthScore gives the
    fallback risk score 0.0: [max(0.0, nan)] keeps its first argument. *)
Theorem fallback_nan_floored_to_zero (features : gmap string pyfloat)
    (error_msg : string) (h : pyfloat) :
  features !! "cognitiveHealthScore" = Some NaN ->
  features !! "hesitationRatio" = Some h ->
  Scorer.riskScore (Scorer._fallback_scoring features error_msg) = Fin 0.0.
Proof.
  intros Hc Hh.
  unfold Scorer._fallback_scoring, Scorer.fallback_primary,
    Scorer.fallback_hesitation.
  rewrite Hc, Hh. cbn [Scorer.riskScore].
  destruct h as [q | | |]; reflexivity.
Qed.

Lemma fallback_nan_floored_to_zero_witness :
  (<["hesitationRatio" := Fin 0.2]> nan_health) !! "cognitiveHealthScore"
  = Some NaN
  /\ (<["hesitationRatio" := Fin 0.2]> nan_health) !! "hesitationRatio"
     = Some (Fin 0.2)
  /\ Scorer.riskScore
       (Scorer._fallback_scoring (<["hesitationRatio" := Fin 0.2]> nan_health)
          "failure") = Fin 0.0.
Proof.
  assert (H1 : (<["hesitationRatio" := Fin 0.2]> nan_health)
               !! "cognitiveHealthScore" = Some NaN)
    by (vm_compute; reflexivity).
  assert (H2 : (<["hesitationRatio" := Fin 0.2]> nan_health)
               !! "hesitationRatio" = Some (Fin 0.2))
    by (vm_compute; reflexivity).
  split; [exact H1 |]. split; [exact H2 |].
  exact (fallback_nan_floored_to_zero _ "failure" (Fin 0.2) H1 H2).
Defined.

(** ** Monotone normalisation *)

Lemma py_clamp_monotone (lo hi a b : Q) :
  lo <= hi -> a <= b ->
  py_max lo (py_min hi a) <= py_max lo (py_min hi b).
Proof.
  intros Hlh Hab. unfold py_min.
  destruct (Qlt_bool a hi) eqn:Ea; destruct (Qlt_bool b hi) eqn:Eb;
    try apply Qlt_bool_true in Ea; try apply Qlt_bool_false in Ea;
    try apply Qlt_bool_true in Eb; try apply Qlt_bool_false in Eb;
    unfold py_max;
    repeat match goal with
           | |- context [Qlt_bool ?u ?v] =>
               let E := fresh "E" in
               destruct (Qlt_bool u v) eqn:E;
               [apply Qlt_bool_true in E | apply Qlt_bool_false in E]
           end; lra.
Qed.

(** X12.  Both normalisers are monotone on finite raw values: a larger raw value
    never gets a smaller normalised value, for every feature name. *)
Theorem normalisation_is_monotone (feature_name : string) (x y : Q) :
  x <= y ->
  finite_part (unit_clamp (Fin x)) <= finite_part (unit_clamp (Fin y))
  /\ finite_part (Explainer._normalize_feature feature_name (Fin x))
     <= finite_part (Explainer._normalize_feature feature_name (Fin y)).
Proof.
  intros Hxy. split.
  - rewrite !unit_clamp_fin. simpl. apply py_clamp_monotone; lra.
  - unfold Explainer._normalize_feature.
    destruct (dict_get Explainer.feature_ranges feature_name)
      as [[lo hi] |] eqn:E.
    + pose proof (feature_range_positive _ _ _ E) as Hw.
      cbn [fsub fadd fopp fdiv].
      fold (unit_clamp (Fin ((x + - lo) / (hi + - lo)))).
      fold (unit_clamp (Fin ((y + - lo) / (hi + - lo)))).
      rewrite !unit_clamp_fin. simpl. apply py_clamp_monotone; [lra |].
      unfold Qdiv. apply Qmult_le_compat_r; [lra |].
      apply Qlt_le_weak. apply Qinv_lt_0_compat. lra.
    + fold (unit_clamp (Fin x)). fold (unit_clamp (Fin y)).
      rewrite !unit_clamp_fin. simpl. apply py_clamp_monotone; lra.
Qed.

Lemma normalisation_is_monotone_witness :
  100 <= 250
  /\ finite_part (unit_clamp (Fin 100)) <= finite_part (unit_clamp (Fin 250))
  /\ finite_part (Explainer._normalize_feature "wordCount" (Fin 100))
     <= finite_part (Explainer._normalize_feature "wordCount" (Fin 250)).
Proof.
  assert (H : 100 <= 250) by lra.
  split; [exact H |].
  exact (normalisation_is_monotone "wordCount" 100 250 H).
Defined.

(** ** The perturbing path at the baseline *)



(** ** The shape of an explanation *)

Lemma tree_loop_keys (features : gmap string pyfloat) (t W : Q) (g : rng) :
  map fst (fst (Explainer.tree_loop t W
                  (Explainer._prepare_feature_vector features) [] g))
  = Explainer.feature_names.
Proof.
  rewrite explainer_vector_entries.
  generalize (Explainer.prepare_entry features). intros value.
  reflexivity.
Qed.

Lemma approximate_loop_keys (features : gmap string pyfloat) (t W : Q) :
  map fst (Explainer.approximate_loop t W
             (Explainer._prepare_feature_vector features) [])
  = Explainer.feature_names.
Proof.
  rewrite explainer_vector_entries.
  generalize (Explainer.prepare_entry features). intros value.
  reflexivity.
Qed.

Lemma shap_values_keys (env : Explainer.environment)
    (features : gmap string pyfloat) (prediction : gmap string Q) (g : rng) :
  map fst (fst (Explainer._calculate_shap_values env
                  (Explainer._prepare_feature_vector features) prediction g))
  = Explainer.feature_names.
Proof.
  unfold Explainer._calculate_shap_values.
  destruct (Explainer.SHAP_AVAILABLE env); cbn [negb fst].
  - destruct (tree_shap_cases (Explainer._prepare_feature_vector features)
                prediction g) as [[_ ->] | [_ ->]].
    + rewrite map_map. cbn [fst]. apply tree_loop_keys.
    + apply tree_loop_keys.
  - apply approximate_loop_keys.
Qed.

(** X17.  Every explanation, from the normal path or from the fallback, carries
    the thirteen enumerated features in order, as the keys of shapValues
    and of featureValues and as featureNames, with base and expected value
    0.5. *)
Theorem explanation_shape (env : Explainer.environment)
    (features : gmap string pyfloat) (prediction : gmap string Q)
    (opts : options) (g : rng) :
  let r := Explainer.generate_shap_explanation env features prediction opts g in
  map fst (Explainer.shapValues r) = Explainer.feature_names
  /\ Explainer.featureNames r = Explainer.feature_names
  /\ map fst (Explainer.featureValues r) = Explainer.feature_names
  /\ Explainer.baseValue r = 0.5
  /\ Explainer.expectedValue r = 0.5.
Proof.
  intros r.
  pose proof (shap_values_keys env features prediction g) as Hk.
  pose proof (approximate_loop_keys features
                (Explainer.risk_score_of prediction - Explainer.expected_value)
                (Explainer.abs_weight_sum
                   (Explainer._prepare_feature_vector features))) as Ha.
  assert (Hv : map fst (Explainer._prepare_feature_vector features)
               = Explainer.feature_names).
  { rewrite explainer_vector_entries, map_map. reflexivity. }
  unfold r, Explainer.generate_shap_explanation,
    Explainer._fallback_explanation.
  generalize dependent (Explainer._prepare_feature_vector features).
  intros vec Hk Ha Hv.
  destruct (Explainer._calculate_shap_values env vec prediction g) as [sv g'].
  simpl in Hk.
  destruct (match explanationTypes opts with
            | [] => inr ()
            | _ :: _ => Explainer.makedirs env (outputPath opts)
            end) as [e | u]; simpl; auto.
Qed.

(** X18.  An explanation is tagged "fallback" exactly when charts were requested
    and [os.makedirs] raised; it then carries the text of that exception
    and the values of the linear approximation. *)
Theorem explanation_fallback_iff (env : Explainer.environment)
    (features : gmap string pyfloat) (prediction : gmap string Q)
    (opts : options) (g : rng) :
  let r := Explainer.generate_shap_explanation env features prediction opts g in
  (Explainer.modelType r = "fallback"
   <-> explanationTypes opts <> []
       /\ exists e, Explainer.makedirs env (outputPath opts) = inl e)
  /\ (forall e,
        explanationTypes opts <> [] ->
        Explainer.makedirs env (outputPath opts) = inl e ->
        Explainer.error r = Some (str_exn e)
        /\ Explainer.shapValues r
           = Explainer._calculate_approximate_shap
               (Explainer._prepare_feature_vector features) prediction).
Proof.
  intros r.
  pose proof (generate_shap_explanation_paths env features prediction opts g)
    as P.
  cbv zeta in P. fold r in P.
  destruct (explanationTypes opts) as [| ty tys].
  - assert (Hty : Explainer.modelType r = "ensemble").
    { destruct (Explainer.makedirs env (outputPath opts)); apply P. }
    rewrite Hty. split.
    + split; [discriminate | intros [H _]; congruence].
    + intros e H. congruence.
  - destruct (Explainer.makedirs env (outputPath opts)) as [e | u].
    + rewrite P. split.
      * split; [intros _ | reflexivity].
        split; [discriminate | exists e; reflexivity].
      * intros e' _ [= <-]. split; reflexivity.
    + destruct P as (_ & _ & Hty & _). rewrite Hty. split.
      * split; [discriminate | intros [_ [e He]]; discriminate He].
      * intros e _ He. discriminate He.
Qed.

(** ** Charts *)

Lemma create_plot_spec (render : nat -> string -> exn + string) (i : nat)
    (kind : string) :
  Explainer.create_plot render i kind
  = if existsb (String.eqb kind) plot_kinds then Some (render i kind)
    else None.
Proof.
  unfold Explainer.create_plot, plot_kinds. simpl.
  repeat match goal with
         | |- context [String.eqb kind ?s] =>
             destruct (String.eqb_spec kind s) as [-> | _];
             [reflexivity | simpl]
         end.
  reflexivity.
Qed.

Lemma dict_set_entries {A} (P : string * A -> Prop) (d : list (string * A))
    (k : string) (v : A) :
  Forall P d -> P (k, v) -> Forall P (dict_set d k v).
Proof.
  intros Hd Hv. induction Hd as [| [k' v'] d Hkv Hd IH]; simpl.
  - constructor; [exact Hv | constructor].
  - destruct (String.eqb k' k) eqn:E; constructor; auto.
    apply String.eqb_eq in E. subst k'. exact Hv.
Qed.

Lemma visualizations_loop_step (render : nat -> string -> exn + string)
    (i : nat) (viz_type : string) (rest : list string)
    (visualizations : list (string * Explainer.visualization)) :
  Explainer.visualizations_loop render i (viz_type :: rest) visualizations
  = Explainer.visualizations_loop render (S i) rest
      (match Explainer.create_plot render i viz_type with
       | Some outcome =>
           dict_set visualizations viz_type (visualization_of viz_type outcome)
       | None => visualizations
       end).
Proof.
  simpl. destruct (Explainer.create_plot render i viz_type) as [[e | f] |];
    reflexivity.
Qed.

Lemma visualizations_loop_get (render : nat -> string -> exn + string)
    (kind : string) (requests : list string) (i : nat)
    (visualizations : list (string * Explainer.visualization)) :
  dict_get (Explainer.visualizations_loop render i requests visualizations)
    kind
  = match last_request kind i requests with
    | Some j =>
        if existsb (String.eqb kind) plot_kinds
        then Some (visualization_of kind (render j kind))
        else dict_get visualizations kind
    | None => dict_get visualizations kind
    end.
Proof.
  revert i visualizations.
  induction requests as [| r rest IH]; intros i visualizations;
    [reflexivity |].
  rewrite visualizations_loop_step, IH. cbn [last_request].
  rewrite create_plot_spec.
  destruct (last_request kind (S i) rest) as [j |].
  - destruct (existsb (String.eqb kind) plot_kinds) eqn:Hk; [reflexivity |].
    destruct (String.eqb_spec r kind) as [-> | Hne].
    + rewrite Hk. reflexivity.
    + destruct (existsb (String.eqb r) plot_kinds); [| reflexivity].
      apply dict_get_set_ne. exact Hne.
  - destruct (String.eqb_spec r kind) as [-> | Hne].
    + destruct (existsb (String.eqb kind) plot_kinds); [| reflexivity].
      apply dict_get_set_eq.
    + destruct (existsb (String.eqb r) plot_kinds); [| reflexivity].
      apply dict_get_set_ne. exact Hne.
Qed.

(** X19.  The charts are isolated from one another: in the dict that
    [_generate_visualizations] returns, the entry of a kind is decided by
    the outcome of the last request for that kind alone.  A kind that was
    not requested, or that is none of the five known kinds, has no entry;
    a known kind has the entry "generated" with the file name when its
    plot function returned and "failed" with the error text when it
    raised, whatever happened to the other charts. *)
Theorem charts_are_isolated (env : Explainer.environment)
    (render : nat -> string -> exn + string) (opts : options)
    (visualizations : list (string * Explainer.visualization))
    (kind : string) :
  Explainer._generate_visualizations env render opts = inr visualizations ->
  dict_get visualizations kind
  = match last_request kind 0 (explanationTypes opts) with
    | Some j =>
        if existsb (String.eqb kind) plot_kinds
        then Some (visualization_of kind (render j kind))
        else None
    | None => None
    end.
Proof.
  unfold Explainer._generate_visualizations.
  destruct (Explainer.makedirs env (outputPath opts)); [discriminate |].
  intros [= <-]. rewrite visualizations_loop_get. reflexivity.
Qed.

Lemma charts_are_isolated_witness :
  Explainer._generate_visualizations with_shap bar_fails chart_requests
  = inr [ ("bar", visualization_of "bar" (inl (OSError "disk full")));
          ("waterfall", visualization_of "waterfall" (inr "waterfall.png")) ]
  /\ dict_get
       [ ("bar", visualization_of "bar" (inl (OSError "disk full")));
         ("waterfall", visualization_of "waterfall" (inr "waterfall.png")) ]
       "waterfall"
     = match last_request "waterfall" 0 (explanationTypes chart_requests) with
       | Some j =>
           if existsb (String.eqb "waterfall") plot_kinds
           then Some (visualization_of "waterfall" (bar_fails j "waterfall"))
           else None
       | None => None
       end.
Proof.
  assert (H : Explainer._generate_visualizations with_shap bar_fails
                chart_requests
              = inr [ ("bar",
                       visualization_of "bar" (inl (OSError "disk full")));
                      ("waterfall",
                       visualization_of "waterfall" (inr "waterfall.png")) ])
    by (vm_compute; reflexivity).
  split; [exact H |].
  exact (charts_are_isolated with_shap bar_fails chart_requests _ "waterfall"
           H).
Defined.

Lemma visualizations_loop_entries (render : nat -> string -> exn + string)
    (P : string * Explainer.visualization -> Prop) (requests : list string)
    (i : nat) (visualizations : list (string * Explainer.visualization)) :
  (forall kind j, In kind requests -> In kind plot_kinds ->
     P (kind, visualization_of kind (render j kind))) ->
  Forall P visualizations ->
  Forall P (Explainer.visualizations_loop render i requests visualizations).
Proof.
  intros HP. revert i visualizations.
  induction requests as [| r rest IH]; intros i visualizations Hacc;
    [exact Hacc |].
  rewrite visualizations_loop_step. apply IH.
  - intros kind j Hin. apply HP. right. exact Hin.
  - rewrite create_plot_spec.
    destruct (existsb (String.eqb r) plot_kinds) eqn:Hk; [| exact Hacc].
    apply dict_set_entries; [exact Hacc |].
    apply HP; [left; reflexivity |].
    apply existsb_exists in Hk. destruct Hk as (s & Hs & E).
    apply String.eqb_eq in E. subst s. exact Hs.
Qed.

(** X20.  Every entry of the returned dict belongs to a requested kind that is
    one of the five known kinds and repeats that kind as its type; it is
    either "generated" with a file name and no error, or "failed" with an
    error text and no file name. *)
Theorem chart_entries_well_formed (env : Explainer.environment)
    (render : nat -> string -> exn + string) (opts : options)
    (visualizations : list (string * Explainer.visualization)) :
  Explainer._generate_visualizations env render opts = inr visualizations ->
  Forall (fun kv =>
            In (fst kv) (explanationTypes opts)
            /\ In (fst kv) plot_kinds
            /\ Explainer.viz_type (snd kv) = fst kv
            /\ ((Explainer.viz_status (snd kv) = "generated"
                 /\ Explainer.viz_filename (snd kv) <> None
                 /\ Explainer.viz_error (snd kv) = None)
                \/ (Explainer.viz_status (snd kv) = "failed"
                    /\ Explainer.viz_filename (snd kv) = None
                    /\ Explainer.viz_error (snd kv) <> None)))
    visualizations.
Proof.
  unfold Explainer._generate_visualizations.
  destruct (Explainer.makedirs env (outputPath opts)); [discriminate |].
  intros [= <-]. apply visualizations_loop_entries; [| constructor].
  intros kind j Hreq Hknown. cbn [fst snd].
  split; [exact Hreq |]. split; [exact Hknown |].
  destruct (render j kind) as [e | f]; simpl.
  - split; [reflexivity |]. right. repeat split; discriminate.
  - split; [reflexivity |]. left. repeat split; discriminate.
Qed.

Lemma chart_entries_well_formed_witness :
  Explainer._generate_visualizations with_shap bar_fails chart_requests
  = inr [ ("bar", visualization_of "bar" (inl (OSError "disk full")));
          ("waterfall", visualization_of "waterfall" (inr "waterfall.png")) ]
  /\ Forall (fun kv =>
               In (fst kv) (explanationTypes chart_requests)
               /\ In (fst kv) plot_kinds
               /\ Explainer.viz_type (snd kv) = fst kv
               /\ ((Explainer.viz_status (snd kv) = "generated"
                    /\ Explainer.viz_filename (snd kv) <> None
                    /\ Explainer.viz_error (snd kv) = None)
                   \/ (Explainer.viz_status (snd kv) = "failed"
                       /\ Explainer.viz_filename (snd kv) = None
                       /\ Explainer.viz_error (snd kv) <> None)))
       [ ("bar", visualization_of "bar" (inl (OSError "disk full")));
         ("waterfall", visualization_of "waterfall" (inr "waterfall.png")) ].
Proof.
  assert (H : Explainer._generate_visualizations with_shap bar_fails
                chart_requests
              = inr [ ("bar",
                       visualization_of "bar" (inl (OSError "disk full")));
                      ("waterfall",
                       visualization_of "waterfall" (inr "waterfall.png")) ])
    by (vm_compute; reflexivity).
  split; [exact H |].
  exact (chart_entries_well_formed with_shap bar_fails chart_requests _ H).
Defined.

(** ** Word repetitions *)

Lemma same_word_distinct (word_sequence : list string) (i j : nat) :
  List.NoDup word_sequence -> i <> j ->
  Analyzer.same_word word_sequence i j = false.
Proof.
  intros Hnd Hij. unfold Analyzer.same_word.
  destruct (nth_error word_sequence i) as [a |] eqn:Ei; [| reflexivity].
  destruct (nth_error word_sequence j) as [b |] eqn:Ej; [| reflexivity].
  destruct (String.eqb_spec a b) as [-> | Hne]; [| reflexivity].
  exfalso. apply Hij.
  rewrite List.NoDup_nth_error in Hnd. apply Hnd.
  - apply nth_error_Some. congruence.
  - congruence.
Qed.

Lemma near_loop_bound (word_sequence : list string) (i near : nat) :
  (near <= Analyzer.near_loop word_sequence i near <= near + 2)%nat.
Proof.
  unfold Analyzer.near_loop, Analyzer.range.
  assert (Hlen : (Nat.min (i + 4) (length word_sequence) - (i + 2) <= 2)%nat)
    by lia.
  revert Hlen. generalize (Nat.min (i + 4) (length word_sequence) - (i + 2))%nat.
  intros n Hn. generalize (i + 2)%nat as start. intros start.
  assert (H : forall js acc,
            (acc <= fold_left
                      (fun near j =>
                         if Analyzer.same_word word_sequence i j
                         then S near else near) js acc
             <= acc + length js)%nat).
  { induction js as [| j js IH]; intros acc; simpl; [lia |].
    destruct (Analyzer.same_word word_sequence i j).
    - pose proof (IH (S acc)). lia.
    - pose proof (IH acc). lia. }
  pose proof (H (seq start n) near) as Hb. rewrite length_seq in Hb. lia.
Qed.

Lemma near_loop_distinct (word_sequence : list string) (i near : nat) :
  List.NoDup word_sequence ->
  Analyzer.near_loop word_sequence i near = near.
Proof.
  intros Hnd. unfold Analyzer.near_loop, Analyzer.range.
  assert (H : forall js acc,
            (forall j, In j js -> i <> j) ->
            fold_left
              (fun near j =>
                 if Analyzer.same_word word_sequence i j then S near else near)
              js acc = acc).
  { induction js as [| j js IH]; intros acc Hjs; simpl; [reflexivity |].
    rewrite same_word_distinct by (auto; apply Hjs; left; reflexivity).
    apply IH. intros j' Hj'. apply Hjs. right. exact Hj'. }
  apply H. intros j Hj. apply in_seq in Hj. lia.
Qed.

(** X21.  On a sequence of distinct words [_detect_repetitions] counts no
    repetition of either kind. *)
Theorem distinct_words_have_no_repetitions (word_sequence : list string) :
  List.NoDup word_sequence ->
  Analyzer._detect_repetitions word_sequence = (0%nat, 0%nat).
Proof.
  intros Hnd. unfold Analyzer._detect_repetitions.
  generalize (Analyzer.range 0 (length word_sequence - 1)). intros idx.
  induction idx as [| i idx IH]; simpl; [reflexivity |].
  unfold Analyzer.repetition_step at 2. simpl.
  rewrite same_word_distinct by (auto; lia).
  rewrite near_loop_distinct by exact Hnd. exact IH.
Qed.

Lemma distinct_words_have_no_repetitions_witness :
  List.NoDup ["the"; "cat"; "sat"; "down"]
  /\ Analyzer._detect_repetitions ["the"; "cat"; "sat"; "down"]
     = (0%nat, 0%nat).
Proof.
  assert (H : List.NoDup ["the"; "cat"; "sat"; "down"]).
  { repeat (constructor; [simpl; intuition discriminate |]). constructor. }
  split; [exact H |].
  exact (distinct_words_have_no_repetitions _ H).
Defined.

(** X22.  A sequence of [n] words has at most [n - 1] immediate repetitions and
    at most [2 * (n - 1)] near ones. *)
Theorem repetition_counts_bounded (word_sequence : list string) :
  (fst (Analyzer._detect_repetitions word_sequence)
   <= length word_sequence - 1)%nat
  /\ (snd (Analyzer._detect_repetitions word_sequence)
      <= 2 * (length word_sequence - 1))%nat.
Proof.
  unfold Analyzer._detect_repetitions, Analyzer.range.
  rewrite Nat.sub_0_r.
  assert (H : forall idx acc,
            (fst (fold_left (Analyzer.repetition_step word_sequence) idx acc)
             <= fst acc + length idx)%nat
            /\ (snd (fold_left (Analyzer.repetition_step word_sequence) idx acc)
                <= snd acc + 2 * length idx)%nat).
  { induction idx as [| i idx IH]; intros acc; simpl; [lia |].
    destruct (IH (Analyzer.repetition_step word_sequence acc i)) as [H1 H2].
    assert (Hf : (fst (Analyzer.repetition_step word_sequence acc i)
                  <= S (fst acc))%nat).
    { unfold Analyzer.repetition_step. simpl.
      destruct (Analyzer.same_word word_sequence i (i + 1)); lia. }
    assert (Hs : (snd (Analyzer.repetition_step word_sequence acc i)
                  <= snd acc + 2)%nat).
    { unfold Analyzer.repetition_step. simpl.
      pose proof (near_loop_bound word_sequence i (snd acc)). lia. }
    lia. }
  destruct (H (seq 0 (length word_sequence - 1)) (0%nat, 0%nat)) as [H1 H2].
  rewrite length_seq in H1, H2. simpl in H1, H2. lia.
Qed.

(** ** Sentence connectivity *)

Lemma count_pos_le (tag : string) (sent : list string) :
  (Analyzer.count_pos tag sent <= length sent)%nat.
Proof. unfold Analyzer.count_pos. apply List.filter_length_le. Qed.

Lemma count_two_tags (sent : list string) :
  (Analyzer.count_pos "PRON" sent + Analyzer.count_pos "DET" sent
   <= length sent)%nat.
Proof.
  unfold Analyzer.count_pos.
  induction sent as [| tag sent IH]; [simpl; lia |].
  cbn [List.filter].
  destruct (String.eqb "PRON" tag) eqn:Ep;
    destruct (String.eqb "DET" tag) eqn:Ed; cbn [length]; try lia.
  apply String.eqb_eq in Ep, Ed. congruence.
Qed.

Lemma inject_nat_positive (n : nat) :
  (0 < n)%nat -> 0 < inject_Z (Z.of_nat n).
Proof. intros H. unfold Qlt. simpl. lia. Qed.

Lemma inject_nat_le (n m : nat) :
  (n <= m)%nat -> inject_Z (Z.of_nat n) <= inject_Z (Z.of_nat m).
Proof. intros H. rewrite <- Zle_Qle. lia. Qed.

Lemma tag_ratio_in_unit (sent : list string) :
  sent <> [] ->
  0 <= inject_Z (Z.of_nat (Analyzer.count_pos "PRON" sent
                           + Analyzer.count_pos "DET" sent))
       / inject_Z (Z.of_nat (length sent)) <= 1.
Proof.
  intros Hne.
  assert (Hlen : 0 < inject_Z (Z.of_nat (length sent))).
  { apply inject_nat_positive. destruct sent; [congruence | simpl; lia]. }
  pose proof (count_two_tags sent) as Hc.
  assert (H0 : 0 <= inject_Z (Z.of_nat (Analyzer.count_pos "PRON" sent
                                        + Analyzer.count_pos "DET" sent))).
  { apply (inject_nat_le 0). lia. }
  assert (H1 : inject_Z (Z.of_nat (Analyzer.count_pos "PRON" sent
                                   + Analyzer.count_pos "DET" sent))
               <= inject_Z (Z.of_nat (length sent))).
  { apply inject_nat_le. exact Hc. }
  split.
  - apply Qle_shift_div_l; [exact Hlen | lra].
  - apply Qle_shift_div_r; [exact Hlen | lra].
Qed.

Lemma connectivity_loop_bounds (sentences : list (list string)) (score : Q) :
  Forall (fun sent => sent <> []) sentences ->
  exists c,
    Analyzer.connectivity_loop sentences score = Some c
    /\ score <= c <= score + inject_Z (Z.of_nat (length sentences)).
Proof.
  intros Hne. revert score.
  induction Hne as [| sent rest Hs Hrest IH]; intros score.
  - exists score. split; [reflexivity |].
    change (inject_Z (Z.of_nat (length (@nil (list string))))) with 0. lra.
  - cbn [Analyzer.connectivity_loop].
    destruct (length sent) as [| n] eqn:El.
    { destruct sent; [congruence | discriminate El]. }
    rewrite <- El. clear El.
    pose proof (tag_ratio_in_unit sent Hs) as Hr.
    set (ratio := inject_Z (Z.of_nat (Analyzer.count_pos "PRON" sent
                                      + Analyzer.count_pos "DET" sent))
                  / inject_Z (Z.of_nat (length sent))) in *.
    destruct (IH (score + ratio)) as (c & Hc & Hb).
    exists c. split; [exact Hc |].
    assert (E : inject_Z (Z.of_nat (length (sent :: rest)))
                == inject_Z (Z.of_nat (length rest)) + 1).
    { simpl length. rewrite Nat2Z.inj_succ. unfold Z.succ.
      rewrite inject_Z_plus. reflexivity. }
    rewrite E. lra.
Qed.

(** X23.  When every sentence after the first has a token, the connectivity score
    is computed and lies in [0, 1]: a token counts at most once, as a
    pronoun or as a determiner. *)
Theorem connectivity_in_unit (sentences : list (list string)) :
  Forall (fun sent => sent <> []) (tl sentences) ->
  exists c,
    Analyzer._calculate_sentence_connectivity sentences = Some c
    /\ 0 <= c <= 1.
Proof.
  intros Hne. unfold Analyzer._calculate_sentence_connectivity.
  destruct (Nat.ltb_spec (length sentences) 2) as [Hshort | Hlong].
  - exists 0. split; [reflexivity | lra].
  - destruct (connectivity_loop_bounds (tl sentences) 0 Hne)
      as (c & Hc & Hb).
    rewrite Hc. eexists. split; [reflexivity |].
    assert (Hl : length (tl sentences) = (length sentences - 1)%nat).
    { destruct sentences; simpl; lia. }
    rewrite Hl in Hb.
    assert (Hpos : 0 < inject_Z (Z.of_nat (length sentences - 1))).
    { apply inject_nat_positive. lia. }
    split.
    + apply Qle_shift_div_l; [exact Hpos | lra].
    + apply Qle_shift_div_r; [exact Hpos | lra].
Qed.

Lemma connectivity_in_unit_witness :
  Forall (fun sent => sent <> [])
    (tl [["DET"; "NOUN"; "VERB"]; ["PRON"; "VERB"; "DET"; "NOUN"];
         ["PRON"; "VERB"]])
  /\ exists c,
       Analyzer._calculate_sentence_connectivity
         [["DET"; "NOUN"; "VERB"]; ["PRON"; "VERB"; "DET"; "NOUN"];
          ["PRON"; "VERB"]] = Some c
       /\ 0 <= c <= 1.
Proof.
  assert (H : Forall (fun sent => sent <> [])
                (tl [["DET"; "NOUN"; "VERB"]; ["PRON"; "VERB"; "DET"; "NOUN"];
                     ["PRON"; "VERB"]])).
  { simpl. repeat (constructor; [discriminate |]). constructor. }
  split; [exact H |].
  exact (connectivity_in_unit _ H).
Defined.

Lemma connectivity_loop_raises (sentences : list (list string)) (score : Q) :
  Analyzer.connectivity_loop sentences score = None
  <-> Exists (fun sent => sent = []) sentences.
Proof.
  revert score. induction sentences as [| sent rest IH]; intros score.
  - simpl. split; [discriminate | intros H; inversion H].
  - cbn [Analyzer.connectivity_loop].
    destruct sent as [| tag sent'].
    + simpl. split; [intros _; left; reflexivity | reflexivity].
    + cbn [length]. rewrite IH. split.
      * intros H. right. exact H.
      * intros H. inversion H as [? ? Hd | ? ? Hd]; subst;
          [discriminate Hd | exact Hd].
Qed.

(** X24.  [_calculate_sentence_connectivity] raises (a division by zero) exactly
    when there are two sentences or more and one after the first has no
    token. *)
Theorem connectivity_raises_iff (sentences : list (list string)) :
  Analyzer._calculate_sentence_connectivity sentences = None
  <-> (2 <= length sentences)%nat
      /\ Exists (fun sent => sent = []) (tl sentences).
Proof.
  unfold Analyzer._calculate_sentence_connectivity.
  destruct (Nat.ltb_spec (length sentences) 2) as [Hshort | Hlong].
  - split; [discriminate | intros [H _]; lia].
  - rewrite <- (connectivity_loop_raises (tl sentences) 0).
    destruct (Analyzer.connectivity_loop (tl sentences) 0).
    + split; [discriminate | intros [_ H]; discriminate H].
    + split; [intros _; split; [exact Hlong | reflexivity] | reflexivity].
Qed.
